(** * Request orchestration of the SWOT analyzer front ends

    A shallow embedding of the two React front ends of the repository:

    - [Local]: the desktop application, [swot-analyzer/src/App.jsx], which
      reaches its backend through [invoke] and reports progress;
    - [Hosted]: the web application, [public-swot/frontend/src/App.jsx],
      which reaches its backend through [fetch].

    An event handler of a component is a function of the state its closure
    captured at the last render and of the replies the outside world gives to
    its [await]s.  It produces the ordered list of the effects it performs:
    calls of state setters, alerts, console output, transport calls, timers.
    A handler never reads back a state variable it has set (setters only
    schedule the next render), so the state after a handler is the replay of
    its setter calls over the state before it. *)

From Stdlib Require Import ZArith List String Ascii Bool Lia.
Import ListNotations.

Local Open Scope string_scope.
Local Open Scope list_scope.

(** ** JavaScript values and control flow *)

Module Js.

(** [!s] is [false] exactly for the non-empty strings. *)
Definition truthy (s : string) : bool :=
  match s with
  | EmptyString => false
  | String _ _ => true
  end.

(** What an awaited promise settles to. *)
Inductive Reply (A : Type) : Type :=
| Ok (a : A)
| Err (e : string).
Arguments Ok {A} a.
Arguments Err {A} e.

(** How a block of statements ends. *)
Inductive Completion (A : Type) : Type :=
| Normal (a : A)
| Thrown (e : string).
Arguments Normal {A} a.
Arguments Thrown {A} e.

Section Effects.
Context {Event : Type}.

(** A computation: its completion and the effects performed, in order. *)
Definition M (A : Type) : Type := (Completion A * list Event)%type.

Definition ret {A} (a : A) : M A := (Normal a, []).

Definition throw {A} (e : string) : M A := (Thrown e, []).

Definition emit (ev : Event) : M unit := (Normal tt, [ev]).

Definition bind {A B} (m : M A) (k : A -> M B) : M B :=
  match m with
  | (Normal a, t) => let (r, t') := k a in (r, t ++ t')
  | (Thrown e, t) => (Thrown e, t)
  end.

(** [try { body } catch (e) { handler e }] *)
Definition try_catch {A} (body : M A) (handler : string -> M A) : M A :=
  match body with
  | (Thrown e, t) => let (r, t') := handler e in (r, t ++ t')
  | (Normal a, t) => (Normal a, t)
  end.

(** [try { body } finally { cleanup }] *)
Definition finally {A} (body : M A) (cleanup : M unit) : M A :=
  let (r, t) := body in
  match cleanup with
  | (Normal _, t') => (r, t ++ t')
  | (Thrown e, t') => (Thrown e, t ++ t')
  end.

(** [await p], where [p] settles to [r]. *)
Definition await {A} (r : Reply A) : M A :=
  match r with
  | Ok a => ret a
  | Err e => throw e
  end.

Definition trace {A} (m : M A) : list Event := snd m.
Definition completion {A} (m : M A) : Completion A := fst m.
End Effects.

Arguments M : clear implicits.

Declare Scope js_scope.
Delimit Scope js_scope with js.
Notation "x <- c1 ;; c2" := (bind c1 (fun x => c2))
  (at level 61, c1 at next level, right associativity) : js_scope.
Notation "c1 ;; c2" := (bind c1 (fun _ => c2))
  (at level 61, right associativity) : js_scope.

End Js.

Import Js.
Local Open Scope js_scope.

(** ** The validator of the specification

    The specification words its validator over requests with a credential;
    [validate] follows them, to be compared with the guards of the handlers. *)

Module Spec.

Inductive Field : Type := inputCsv | inputPdf | businessName | credential.

(** A file reference is the path of the file, empty when none is chosen. *)
Inductive GenerationRequest : Type :=
| QuestionsRequest (csv name key : string)
| SwotRequest (csv pdf name key : string).

Inductive ValidationResult : Type :=
| Valid
| MissingField (f : Field).

Definition is_space (c : ascii) : bool :=
  match nat_of_ascii c with
  | 9 | 10 | 11 | 12 | 13 | 32 => true
  | _ => false
  end.

(** Empty, or made of white space only. *)
Fixpoint blank (s : string) : bool :=
  match s with
  | EmptyString => true
  | String c rest => is_space c && blank rest
  end.

Fixpoint first_blank (fields : list (Field * string)) : ValidationResult :=
  match fields with
  | [] => Valid
  | (f, v) :: rest => if blank v then MissingField f else first_blank rest
  end.

Definition required (r : GenerationRequest) : list (Field * string) :=
  match r with
  | QuestionsRequest csv name key =>
      [(inputCsv, csv); (businessName, name); (credential, key)]
  | SwotRequest csv pdf name key =>
      [(inputCsv, csv); (inputPdf, pdf); (businessName, name); (credential, key)]
  end.

Definition validate (r : GenerationRequest) : ValidationResult :=
  first_blank (required r).

End Spec.

(** ** The desktop application: swot-analyzer/src/App.jsx *)

Module Local.

Inductive Tab : Type := TabQuestions | TabSwot.

Definition tab_eqb (a b : Tab) : bool :=
  match a, b with
  | TabQuestions, TabQuestions | TabSwot, TabSwot => true
  | _, _ => false
  end.

(** The [useState] cells of [App]. *)
Record State : Type := mkState {
  ollamaStatus : string;
  isOllamaReady : bool;
  loading : bool;
  loadingMessage : string;
  progress : Z;
  activeTab : Tab;
  csvPath : string;
  businessName : string;
  questions : list string;
  swotCsvPath : string;
  pdfPath : string;
  swotBusinessName : string;
  swotAnalysis : string
}.

Definition initial_state : State :=
  mkState "" false false "" 0 TabQuestions "" "" [] "" "" "" "".

(** Arguments of a command and of a console call. *)
Inductive Value : Type :=
| VStr (s : string)
| VList (l : list string).

Inductive Event : Type :=
| SetOllamaStatus (v : string)
| SetIsOllamaReady (b : bool)
| SetLoading (b : bool)
| SetLoadingMessage (m : string)
| SetProgress (p : Z)
| SetActiveTab (t : Tab)
| SetCsvPath (v : string)
| SetBusinessName (v : string)
| SetQuestions (qs : list string)
| SetSwotCsvPath (v : string)
| SetPdfPath (v : string)
| SetSwotBusinessName (v : string)
| SetSwotAnalysis (v : string)
| Alert (msg : string)
| ConsoleLog (args : list Value)
| ConsoleError (args : list Value)
| Invoke (cmd : string) (args : list (string * Value))
| Resolved (cmd : string)
| Rejected (cmd : string) (e : string)
| OpenDialog (extension : string)
| SaveDialog (defaultPath : string)
| Sleep (ms : Z)
| Timeout (ms : Z).

(** The effect of one event on the state cells. *)
Definition apply_event (ev : Event) (s : State) : State :=
  let 'mkState st rdy ld msg pr tab csv name qs scsv pdf sname swot := s in
  match ev with
  | SetOllamaStatus v => mkState v rdy ld msg pr tab csv name qs scsv pdf sname swot
  | SetIsOllamaReady b => mkState st b ld msg pr tab csv name qs scsv pdf sname swot
  | SetLoading b => mkState st rdy b msg pr tab csv name qs scsv pdf sname swot
  | SetLoadingMessage m => mkState st rdy ld m pr tab csv name qs scsv pdf sname swot
  | SetProgress p => mkState st rdy ld msg p tab csv name qs scsv pdf sname swot
  | SetActiveTab t => mkState st rdy ld msg pr t csv name qs scsv pdf sname swot
  | SetCsvPath v => mkState st rdy ld msg pr tab v name qs scsv pdf sname swot
  | SetBusinessName v => mkState st rdy ld msg pr tab csv v qs scsv pdf sname swot
  | SetQuestions l => mkState st rdy ld msg pr tab csv name l scsv pdf sname swot
  | SetSwotCsvPath v => mkState st rdy ld msg pr tab csv name qs v pdf sname swot
  | SetPdfPath v => mkState st rdy ld msg pr tab csv name qs scsv v sname swot
  | SetSwotBusinessName v => mkState st rdy ld msg pr tab csv name qs scsv pdf v swot
  | SetSwotAnalysis v => mkState st rdy ld msg pr tab csv name qs scsv pdf sname v
  | _ => s
  end.

Definition replay (t : list Event) (s : State) : State :=
  fold_left (fun acc ev => apply_event ev acc) t s.

Definition alert (msg : string) : M Event unit := emit (Alert msg).
Definition sleep (ms : Z) : M Event unit := emit (Sleep ms).

(** [setTimeout(callback, ms)]: the callback runs once the delay is over. *)
Definition setTimeout (callback : M Event unit) (ms : Z) : M Event unit :=
  emit (Timeout ms) ;; callback.

(** [await invoke(cmd, args)], the backend settling the call to [r]. *)
Definition invoke {A} (cmd : string) (args : list (string * Value))
    (r : Reply A) : M Event A :=
  emit (Invoke cmd args) ;;
  match r with
  | Ok a => emit (Resolved cmd) ;; ret a
  | Err e => emit (Rejected cmd e) ;; throw e
  end.

Definition checkOllamaStatus (r : Reply string) : M Event unit :=
  try_catch
    (status <- invoke "check_ollama_status" [] r ;;
     emit (SetOllamaStatus status) ;;
     emit (SetIsOllamaReady true))
    (fun error =>
     emit (SetOllamaStatus error) ;;
     emit (SetIsOllamaReady false)).

(** [open] settles to the chosen path, or to nothing when cancelled. *)
Definition selectCsvFile (setter : string -> Event)
    (r : Reply (option string)) : M Event unit :=
  try_catch
    (emit (OpenDialog "csv") ;;
     selected <- await r ;;
     match selected with
     | Some path =>
         if truthy path
         then emit (setter path) ;;
              emit (ConsoleLog [VStr "Selected file:"; VStr path])
         else ret tt
     | None => ret tt
     end)
    (fun error =>
     emit (ConsoleError [VStr "Error selecting file:"; VStr error]) ;;
     alert ("Error selecting file: " ++ error)).

Definition selectPdfFile (r : Reply (option string)) : M Event unit :=
  try_catch
    (emit (OpenDialog "pdf") ;;
     selected <- await r ;;
     match selected with
     | Some path =>
         if truthy path
         then emit (SetPdfPath path) ;;
              emit (ConsoleLog [VStr "Selected PDF:"; VStr path])
         else ret tt
     | None => ret tt
     end)
    (fun error =>
     emit (ConsoleError [VStr "Error selecting PDF:"; VStr error]) ;;
     alert ("Error selecting file: " ++ error)).

Definition generateQuestions (s : State) (r : Reply (list string))
    : M Event unit :=
  if negb (truthy (csvPath s)) || negb (truthy (businessName s)) then
    alert "Please select a CSV file and enter a business name"
  else
    emit (SetLoading true) ;;
    emit (SetProgress 0) ;;
    emit (SetLoadingMessage "Reading CSV file...") ;;
    finally
      (try_catch
         (emit (ConsoleLog [VStr "Starting question generation..."]) ;;
          emit (ConsoleLog [VStr "CSV Path:"; VStr (csvPath s)]) ;;
          emit (ConsoleLog [VStr "Business Name:"; VStr (businessName s)]) ;;
          emit (SetProgress 20) ;;
          emit (SetLoadingMessage "Finding company data...") ;;
          sleep 500 ;;
          emit (SetProgress 40) ;;
          emit (SetLoadingMessage "Preparing AI prompt...") ;;
          sleep 500 ;;
          emit (SetProgress 60) ;;
          emit (SetLoadingMessage "Generating questions with AI...") ;;
          result <- invoke "generate_followup_questions"
                      [("csv_path", VStr (csvPath s));
                       ("business_name", VStr (businessName s))] r ;;
          emit (SetProgress 90) ;;
          emit (SetLoadingMessage "Processing results...") ;;
          sleep 300 ;;
          emit (ConsoleLog [VStr "Generated questions:"; VList result]) ;;
          emit (SetQuestions result) ;;
          emit (SetProgress 100) ;;
          emit (SetLoadingMessage "Complete!") ;;
          if Nat.eqb (List.length result) 0
          then alert "No questions were generated. Please check if the business name exists in the CSV file."
          else ret tt)
         (fun error =>
          emit (ConsoleError [VStr "Error generating questions:"; VStr error]) ;;
          alert ("Error generating questions: " ++ error)))
      (setTimeout
         (emit (SetLoading false) ;;
          emit (SetProgress 0) ;;
          emit (SetLoadingMessage ""))
         500).

(** [save] settles to the destination, or to nothing when cancelled. *)
Definition saveQuestionsToPdf (s : State) (dest : Reply (option string))
    (r : Reply unit) : M Event unit :=
  if Nat.eqb (List.length (questions s)) 0 then
    alert "No questions to save"
  else
    try_catch
      (emit (SaveDialog (businessName s ++ "_questions.pdf")) ;;
       savePath <- await dest ;;
       match savePath with
       | Some path =>
           if truthy path
           then invoke "save_questions_to_pdf"
                  [("questions", VList (questions s));
                   ("businessName", VStr (businessName s));
                   ("outputPath", VStr path)] r ;;
                alert "Questions saved successfully!"
           else ret tt
       | None => ret tt
       end)
      (fun error => alert ("Error saving questions: " ++ error)).

Definition generateSwot (s : State) (r : Reply string) : M Event unit :=
  if negb (truthy (swotCsvPath s)) || negb (truthy (pdfPath s))
     || negb (truthy (swotBusinessName s)) then
    alert "Please select CSV file, PDF file, and enter a business name"
  else
    emit (SetLoading true) ;;
    emit (SetProgress 0) ;;
    emit (SetLoadingMessage "Reading files...") ;;
    finally
      (try_catch
         (emit (SetProgress 15) ;;
          emit (SetLoadingMessage "Processing CSV data...") ;;
          sleep 500 ;;
          emit (SetProgress 30) ;;
          emit (SetLoadingMessage "Extracting PDF content...") ;;
          sleep 500 ;;
          emit (SetProgress 50) ;;
          emit (SetLoadingMessage "Analyzing company data...") ;;
          sleep 500 ;;
          emit (SetProgress 70) ;;
          emit (SetLoadingMessage "Generating SWOT analysis with AI...") ;;
          result <- invoke "generate_swot_analysis"
                      [("csv_path", VStr (swotCsvPath s));
                       ("pdf_path", VStr (pdfPath s));
                       ("business_name", VStr (swotBusinessName s))] r ;;
          emit (SetProgress 95) ;;
          emit (SetLoadingMessage "Finalizing analysis...") ;;
          sleep 300 ;;
          emit (SetSwotAnalysis result) ;;
          emit (SetProgress 100) ;;
          emit (SetLoadingMessage "Complete!"))
         (fun error => alert ("Error generating SWOT analysis: " ++ error)))
      (setTimeout
         (emit (SetLoading false) ;;
          emit (SetProgress 0) ;;
          emit (SetLoadingMessage ""))
         500).

Definition saveSwotToPdf (s : State) (dest : Reply (option string))
    (r : Reply unit) : M Event unit :=
  if negb (truthy (swotAnalysis s)) then
    alert "No SWOT analysis to save"
  else
    try_catch
      (emit (SaveDialog (swotBusinessName s ++ "_swot.pdf")) ;;
       savePath <- await dest ;;
       match savePath with
       | Some path =>
           if truthy path
           then invoke "save_swot_to_pdf"
                  [("swotText", VStr (swotAnalysis s));
                   ("businessName", VStr (swotBusinessName s));
                   ("outputPath", VStr path)] r ;;
                alert "SWOT analysis saved successfully!"
           else ret tt
       | None => ret tt
       end)
      (fun error => alert ("Error saving SWOT analysis: " ++ error)).

(** *** The segments of the traces of the generation handlers

    The effects up to the transport call and those of the timer of the
    [finally] block, as the handlers are proved to perform them. *)

Definition cleanup : list Event :=
  [Timeout 500; SetLoading false; SetProgress 0; SetLoadingMessage ""].

Definition questions_prefix (s : State) : list Event :=
  [SetLoading true; SetProgress 0; SetLoadingMessage "Reading CSV file...";
   ConsoleLog [VStr "Starting question generation..."];
   ConsoleLog [VStr "CSV Path:"; VStr (csvPath s)];
   ConsoleLog [VStr "Business Name:"; VStr (businessName s)];
   SetProgress 20; SetLoadingMessage "Finding company data..."; Sleep 500;
   SetProgress 40; SetLoadingMessage "Preparing AI prompt..."; Sleep 500;
   SetProgress 60; SetLoadingMessage "Generating questions with AI...";
   Invoke "generate_followup_questions"
     [("csv_path", VStr (csvPath s)); ("business_name", VStr (businessName s))]].

Definition swot_prefix (s : State) : list Event :=
  [SetLoading true; SetProgress 0; SetLoadingMessage "Reading files...";
   SetProgress 15; SetLoadingMessage "Processing CSV data..."; Sleep 500;
   SetProgress 30; SetLoadingMessage "Extracting PDF content..."; Sleep 500;
   SetProgress 50; SetLoadingMessage "Analyzing company data..."; Sleep 500;
   SetProgress 70; SetLoadingMessage "Generating SWOT analysis with AI...";
   Invoke "generate_swot_analysis"
     [("csv_path", VStr (swotCsvPath s)); ("pdf_path", VStr (pdfPath s));
      ("business_name", VStr (swotBusinessName s))]].

(** *** What [App] renders *)

(** [{!isOllamaReady && <button onClick={checkOllamaStatus}>}] *)
Definition retry_button_rendered (s : State) : bool := negb (isOllamaReady s).

(** [{isOllamaReady && <main>}]: tabs, forms, submit buttons and results. *)
Definition main_rendered (s : State) : bool := isOllamaReady s.

Definition questions_button_disabled (s : State) : bool :=
  loading s || negb (truthy (csvPath s)) || negb (truthy (businessName s)).

Definition swot_button_disabled (s : State) : bool :=
  loading s || negb (truthy (swotCsvPath s)) || negb (truthy (pdfPath s))
  || negb (truthy (swotBusinessName s)).

(** [{loading ? 'Generating...' : 'Generate Questions'}] *)
Definition questions_button_label (s : State) : string :=
  if loading s then "Generating..." else "Generate Questions".

Definition swot_button_label (s : State) : string :=
  if loading s then "Generating..." else "Generate SWOT Analysis".

(** [{loading && <div className="loading-overlay">}]: label and percentage. *)
Definition overlay (s : State) : option (string * Z) :=
  if loading s then Some (loadingMessage s, progress s) else None.

(** What the user can do to the rendered page, with the replies of the
    outside world to the handler it starts. *)
Inductive Action : Type :=
| ClickRetry (r : Reply string)
| ClickTab (t : Tab)
| BrowseCsv (r : Reply (option string))
| TypeBusinessName (v : string)
| ClickGenerateQuestions (r : Reply (list string))
| ClickSaveQuestions (dest : Reply (option string)) (r : Reply unit)
| BrowseSwotCsv (r : Reply (option string))
| BrowsePdf (r : Reply (option string))
| TypeSwotBusinessName (v : string)
| ClickGenerateSwot (r : Reply string)
| ClickSaveSwot (dest : Reply (option string)) (r : Reply unit).

(** The control of the action is rendered and not disabled. *)
Definition available (s : State) (a : Action) : bool :=
  match a with
  | ClickRetry _ => retry_button_rendered s
  | ClickTab _ => main_rendered s
  | BrowseCsv _ | TypeBusinessName _ =>
      main_rendered s && tab_eqb (activeTab s) TabQuestions
  | ClickGenerateQuestions _ =>
      main_rendered s && tab_eqb (activeTab s) TabQuestions
      && negb (questions_button_disabled s)
  | ClickSaveQuestions _ _ =>
      main_rendered s && tab_eqb (activeTab s) TabQuestions
      && Nat.ltb 0 (List.length (questions s))
  | BrowseSwotCsv _ | BrowsePdf _ | TypeSwotBusinessName _ =>
      main_rendered s && tab_eqb (activeTab s) TabSwot
  | ClickGenerateSwot _ =>
      main_rendered s && tab_eqb (activeTab s) TabSwot
      && negb (swot_button_disabled s)
  | ClickSaveSwot _ _ =>
      main_rendered s && tab_eqb (activeTab s) TabSwot
      && truthy (swotAnalysis s)
  end.

Definition handler (s : State) (a : Action) : M Event unit :=
  match a with
  | ClickRetry r => checkOllamaStatus r
  | ClickTab t => emit (SetActiveTab t)
  | BrowseCsv r => selectCsvFile SetCsvPath r
  | TypeBusinessName v => emit (SetBusinessName v)
  | ClickGenerateQuestions r => generateQuestions s r
  | ClickSaveQuestions dest r => saveQuestionsToPdf s dest r
  | BrowseSwotCsv r => selectCsvFile SetSwotCsvPath r
  | BrowsePdf r => selectPdfFile r
  | TypeSwotBusinessName v => emit (SetSwotBusinessName v)
  | ClickGenerateSwot r => generateSwot s r
  | ClickSaveSwot dest r => saveSwotToPdf s dest r
  end.

(** One user action, its handler run to completion. *)
Definition step (s : State) (a : Action) : State * list Event :=
  if available s a
  then let t := trace (handler s a) in (replay t s, t)
  else (s, []).

Fixpoint run (s : State) (actions : list Action) : State * list Event :=
  match actions with
  | [] => (s, [])
  | a :: rest =>
      let (s1, t1) := step s a in
      let (s2, t2) := run s1 rest in
      (s2, t1 ++ t2)
  end.

(** A process lifetime: [useEffect(() => { checkOllamaStatus(); }, [])] on
    mount, then the actions of the user. *)
Definition session (mount : Reply string) (actions : list Action)
    : State * list Event :=
  let t0 := trace (checkOllamaStatus mount) in
  let (s, t) := run (replay t0 initial_state) actions in
  (s, t0 ++ t).

(** *** Reading a trace *)

(** The events before the first one that satisfies [stop]. *)
Fixpoint before (stop : Event -> bool) (t : list Event) : list Event :=
  match t with
  | [] => []
  | ev :: rest => if stop ev then [] else ev :: before stop rest
  end.

Definition is_release (ev : Event) : bool :=
  match ev with
  | SetLoading false => true
  | _ => false
  end.

Definition is_invoke (ev : Event) : bool :=
  match ev with
  | Invoke _ _ => true
  | _ => false
  end.

Definition is_settled (ev : Event) : bool :=
  match ev with
  | Resolved _ | Rejected _ _ => true
  | _ => false
  end.

Definition is_generation (cmd : string) : bool :=
  String.eqb cmd "generate_followup_questions"
  || String.eqb cmd "generate_swot_analysis".

Definition invokes_generation (ev : Event) : bool :=
  match ev with
  | Invoke cmd _ => is_generation cmd
  | _ => false
  end.

(** The percentages handed to [setProgress], in order. *)
Fixpoint percents (t : list Event) : list Z :=
  match t with
  | [] => []
  | SetProgress p :: rest => p :: percents rest
  | _ :: rest => percents rest
  end.

(** The pairs [setProgress(p); setLoadingMessage(m)], in order. *)
Fixpoint emissions (t : list Event) : list (Z * string) :=
  match t with
  | [] => []
  | SetProgress p :: rest =>
      match rest with
      | SetLoadingMessage m :: _ => (p, m) :: emissions rest
      | _ => emissions rest
      end
  | _ :: rest => emissions rest
  end.

(** A label is shown from its own percentage up to the next one. *)
Fixpoint phases (l : list (Z * string)) : list (string * Z * Z) :=
  match l with
  | [] => []
  | (p, m) :: rest =>
      match rest with
      | (q, _) :: _ => (m, p, q) :: phases rest
      | [] => []
      end
  end.

Fixpoint nondecreasing (l : list Z) : bool :=
  match l with
  | [] => true
  | a :: rest =>
      match rest with
      | b :: _ => Z.leb a b && nondecreasing rest
      | [] => true
      end
  end.

Definition count_percent (p : Z) (l : list Z) : nat :=
  List.length (filter (Z.eqb p) l).

(** The job of the trace: from submission to the release of the slot. *)
Definition job (t : list Event) : list Event := before is_release t.

(** The state cells when the transport call is issued. *)
Definition in_flight (s : State) (t : list Event) : State :=
  replay (before is_invoke t) s.

(** The overlay when the job of the trace is released. *)
Definition display_at_release (s : State) (t : list Event)
    : option (string * Z) :=
  overlay (replay (job t) s).

(** The overlay when the awaited call settles. *)
Definition display_at_settlement (s : State) (t : list Event)
    : option (string * Z) :=
  overlay (replay (before is_settled t) s).

(** The progress the specification asks of the job of a trace: percentages
    that never decrease, 100 at the end of a job that succeeded, and after
    a failure a display of its own, not the one the failure found. *)
Definition progress_as_specified (s : State) (succeeded : bool)
    (t : list Event) : Prop :=
  nondecreasing (percents (job t)) = true /\
  if succeeded
  then display_at_release s t = Some ("Complete!", 100%Z)
  else display_at_release s t <> display_at_settlement s t.

(** The form of a request, typed into the page.  The desktop application
    has no credential field. *)
Definition form_of (r : Spec.GenerationRequest) : State :=
  match r with
  | Spec.QuestionsRequest csv name _ =>
      mkState "" true false "" 0 TabQuestions csv name [] "" "" "" ""
  | Spec.SwotRequest csv pdf name _ =>
      mkState "" true false "" 0 TabSwot "" "" [] csv pdf name ""
  end.

Definition reaches_transport (t : list Event) : bool :=
  existsb is_invoke t.

Definition is_check_resolved (ev : Event) : bool :=
  match ev with
  | Resolved cmd => String.eqb cmd "check_ollama_status"
  | _ => false
  end.

(** Every generation call of the trace comes after a resolved readiness
    check, [ready] telling whether one resolved before the trace. *)
Fixpoint guarded_by_readiness (ready : bool) (t : list Event) : bool :=
  match t with
  | [] => true
  | ev :: rest =>
      if invokes_generation ev
      then ready && guarded_by_readiness ready rest
      else guarded_by_readiness (ready || is_check_resolved ev) rest
  end.

(** *** More readers of a trace *)

(** The alerts of the guards at the head of the four handlers. *)
Definition is_guard_alert (ev : Event) : bool :=
  match ev with
  | Alert msg =>
      String.eqb msg "Please select a CSV file and enter a business name"
      || String.eqb msg "Please select CSV file, PDF file, and enter a business name"
      || String.eqb msg "No questions to save"
      || String.eqb msg "No SWOT analysis to save"
  | _ => false
  end.


Definition is_alert (ev : Event) : bool :=
  match ev with
  | Alert _ => true
  | _ => false
  end.

(** The overlay is hidden and its cells are back to their first values. *)
Definition at_rest (s : State) : bool :=
  negb (loading s) && Z.eqb (progress s) 0 && negb (truthy (loadingMessage s)).

Definition invokes (cmd : string) (ev : Event) : bool :=
  match ev with
  | Invoke c _ => String.eqb c cmd
  | _ => false
  end.

Definition resolves (cmd : string) (ev : Event) : bool :=
  match ev with
  | Resolved c => String.eqb c cmd
  | _ => false
  end.

End Local.

(** ** The web application: public-swot/frontend/src/App.jsx *)

Module Hosted.

Definition API_BASE_URL : string := "http://localhost:8000".

Inductive Tab : Type := TabQuestions | TabSwot.

(** A chosen file, by its name; [None] is [null]. *)
Definition File : Type := string.

Record QuestionsForm : Type := mkQuestionsForm {
  qf_csvFile : option File;
  qf_businessName : string;
  qf_apiKey : string
}.

Record SwotForm : Type := mkSwotForm {
  sf_csvFile : option File;
  sf_pdfFile : option File;
  sf_businessName : string;
  sf_apiKey : string
}.

(** The success body of [/api/generate-questions].  The count is a JSON
    integer; [questions_preview] is [None] when the field is missing. *)
Record QuestionsData : Type := mkQuestionsData {
  q_business_name : string;
  questions_count : Z;
  questions_preview : option (list string);
  q_pdf_id : string
}.

Record SwotData : Type := mkSwotData {
  s_business_name : string;
  swot_analysis : string;
  s_pdf_id : string
}.

(** The [detail] field of a failure body: missing, a string, or an object
    with a [message] field or without. *)
Inductive Detail : Type :=
| NoDetail
| DetailString (s : string)
| DetailObject (message : option string).

(** The parsed body, through the fields the handlers read. *)
Record Body (R : Type) : Type := mkBody {
  detail : Detail;
  data : R
}.
Arguments mkBody {R} detail data.
Arguments detail {R} b.
Arguments data {R} b.

(** A response: [response.ok] and what [response.json()] settles to. *)
Record Response (R : Type) : Type := mkResponse {
  ok : bool;
  json : Reply (Body R)
}.
Arguments mkResponse {R} ok json.
Arguments ok {R} r.
Arguments json {R} r.

(** A response of the download route: [response.ok] and [response.blob()]. *)
Record Download : Type := mkDownload {
  d_ok : bool;
  d_blob : Reply string
}.

Record State : Type := mkState {
  activeTab : Tab;
  questionsForm : QuestionsForm;
  swotForm : SwotForm;
  questionsLoading : bool;
  swotLoading : bool;
  questionsResult : option QuestionsData;
  swotResult : option SwotData;
  error : option string
}.

Definition initial_state : State :=
  mkState TabQuestions (mkQuestionsForm None "" "") (mkSwotForm None None "" "")
    false false None None None.

Inductive Part : Type :=
| PFile (f : option File)
| PText (s : string).

Inductive Event : Type :=
| PreventDefault
| SetActiveTab (t : Tab)
| SetQuestionsForm (f : QuestionsForm)
| SetSwotForm (f : SwotForm)
| SetQuestionsLoading (b : bool)
| SetSwotLoading (b : bool)
| SetQuestionsResult (r : option QuestionsData)
| SetSwotResult (r : option SwotData)
| SetError (e : option string)
| Fetch (method url : string) (body : list (string * Part))
| ReadJson
| ReadBlob
| AnchorClick (download : string) (blob : string).

Definition apply_event (ev : Event) (s : State) : State :=
  let 'mkState tab qf sf ql sl qr sr err := s in
  match ev with
  | SetActiveTab t => mkState t qf sf ql sl qr sr err
  | SetQuestionsForm f => mkState tab f sf ql sl qr sr err
  | SetSwotForm f => mkState tab qf f ql sl qr sr err
  | SetQuestionsLoading b => mkState tab qf sf b sl qr sr err
  | SetSwotLoading b => mkState tab qf sf ql b qr sr err
  | SetQuestionsResult r => mkState tab qf sf ql sl r sr err
  | SetSwotResult r => mkState tab qf sf ql sl qr r err
  | SetError e => mkState tab qf sf ql sl qr sr e
  | _ => s
  end.

Definition replay (t : list Event) (s : State) : State :=
  fold_left (fun acc ev => apply_event ev acc) t s.

(** [await fetch(url, {method, body})] *)
Definition fetch {A} (method url : string) (body : list (string * Part))
    (r : Reply A) : M Event A :=
  emit (Fetch method url body) ;; await r.

(** [data.detail?.message || data.detail || fallback], as the message of
    the [Error] built from it. *)
Definition error_message (d : Detail) (fallback : string) : string :=
  match d with
  | NoDetail => fallback
  | DetailString s => if truthy s then s else fallback
  | DetailObject (Some m) => if truthy m then m else "[object Object]"
  | DetailObject None => "[object Object]"
  end.

(** The [try] block of [generateQuestions].  A thrown [Error] is carried
    by its [message]. *)
Definition generateQuestions_try (formData : list (string * Part))
    (r : Reply (Response QuestionsData)) : M Event unit :=
  response <- fetch "POST" (API_BASE_URL ++ "/api/generate-questions")
                formData r ;;
  body <- (emit ReadJson ;; await (json response)) ;;
  (if negb (ok response)
   then throw (error_message (detail body) "Error generating questions")
   else ret tt) ;;
  emit (SetQuestionsResult (Some (data body))).

Definition generateQuestions (s : State) (r : Reply (Response QuestionsData))
    : M Event unit :=
  emit PreventDefault ;;
  emit (SetQuestionsLoading true) ;;
  emit (SetError None) ;;
  emit (SetQuestionsResult None) ;;
  let formData :=
    [("csv_file", PFile (qf_csvFile (questionsForm s)));
     ("business_name", PText (qf_businessName (questionsForm s)));
     ("api_key", PText (qf_apiKey (questionsForm s)))] in
  finally
    (try_catch
       (generateQuestions_try formData r)
       (fun err => emit (SetError (Some err))))
    (emit (SetQuestionsLoading false)).

(** The [try] block of [generateSwot]. *)
Definition generateSwot_try (formData : list (string * Part))
    (r : Reply (Response SwotData)) : M Event unit :=
  response <- fetch "POST" (API_BASE_URL ++ "/api/generate-swot")
                formData r ;;
  body <- (emit ReadJson ;; await (json response)) ;;
  (if negb (ok response)
   then throw (error_message (detail body) "Error generating SWOT analysis")
   else ret tt) ;;
  emit (SetSwotResult (Some (data body))).

Definition generateSwot (s : State) (r : Reply (Response SwotData))
    : M Event unit :=
  emit PreventDefault ;;
  emit (SetSwotLoading true) ;;
  emit (SetError None) ;;
  emit (SetSwotResult None) ;;
  let formData :=
    [("csv_file", PFile (sf_csvFile (swotForm s)));
     ("pdf_file", PFile (sf_pdfFile (swotForm s)));
     ("business_name", PText (sf_businessName (swotForm s)));
     ("api_key", PText (sf_apiKey (swotForm s)))] in
  finally
    (try_catch
       (generateSwot_try formData r)
       (fun err => emit (SetError (Some err))))
    (emit (SetSwotLoading false)).

(** The [try] block of [downloadPdf]. *)
Definition downloadPdf_try (pdfId filename : string) (r : Reply Download)
    : M Event unit :=
  response <- fetch "GET" (API_BASE_URL ++ "/api/download-pdf/" ++ pdfId) [] r ;;
  (if negb (d_ok response) then throw "Download failed" else ret tt) ;;
  blob <- (emit ReadBlob ;; await (d_blob response)) ;;
  emit (AnchorClick filename blob).

Definition downloadPdf (pdfId filename : string) (r : Reply Download)
    : M Event unit :=
  try_catch
    (downloadPdf_try pdfId filename r)
    (fun err => emit (SetError (Some "Failed to download PDF"))).

(** *** What [App] renders *)

Definition present {A} (o : option A) : bool :=
  match o with
  | Some _ => true
  | None => false
  end.

Definition questions_button_disabled (s : State) : bool :=
  questionsLoading s || negb (present (qf_csvFile (questionsForm s)))
  || negb (truthy (qf_businessName (questionsForm s)))
  || negb (truthy (qf_apiKey (questionsForm s))).

Definition swot_button_disabled (s : State) : bool :=
  swotLoading s || negb (present (sf_csvFile (swotForm s)))
  || negb (present (sf_pdfFile (swotForm s)))
  || negb (truthy (sf_businessName (swotForm s)))
  || negb (truthy (sf_apiKey (swotForm s))).


Inductive Node : Type :=
| Text (s : string)
| Number (n : Z).

(** The number in
    [... et {questionsResult.questions_count - 5} questions ...]. *)
Definition additional_questions (r : QuestionsData) : Z :=
  questions_count r - 5.

Fixpoint numbered (index : Z) (l : list string) : list (list Node) :=
  match l with
  | [] => []
  | question :: rest =>
      [Number (index + 1); Text "."; Text question] :: numbered (index + 1) rest
  end.

(** [{questionsResult.questions_preview && <div>}]: the numbered preview
    and the paragraph under it. *)
Definition preview (r : QuestionsData) : option (list (list Node) * list Node) :=
  match questions_preview r with
  | Some l =>
      Some (numbered 0 l,
            [Text "... et "; Number (additional_questions r);
             Text " questions supplémentaires dans le PDF"])
  | None => None
  end.

(** [{questionsResult && <div>}], under the questions tab. *)
Definition questions_panel (s : State) : option QuestionsData :=
  match activeTab s with
  | TabQuestions => questionsResult s
  | TabSwot => None
  end.

Definition swot_panel (s : State) : option SwotData :=
  match activeTab s with
  | TabSwot => swotResult s
  | TabQuestions => None
  end.

(** *** Reading a trace *)

Fixpoint before (stop : Event -> bool) (t : list Event) : list Event :=
  match t with
  | [] => []
  | ev :: rest => if stop ev then [] else ev :: before stop rest
  end.

Definition is_fetch (ev : Event) : bool :=
  match ev with
  | Fetch _ _ _ => true
  | _ => false
  end.

(** The state cells when the transport call is issued. *)
Definition in_flight (s : State) (t : list Event) : State :=
  replay (before is_fetch t) s.

(** The reply is anything but a success body under a success status. *)
Definition failed {R} (r : Reply (Response R)) : bool :=
  match r with
  | Ok (mkResponse true (Ok _)) => false
  | _ => true
  end.

(** *** Form edits *)

Definition tab_eqb (a b : Tab) : bool :=
  match a, b with
  | TabQuestions, TabQuestions | TabSwot, TabSwot => true
  | _, _ => false
  end.

(** The keys [handleFileUpload] is called with. *)
Inductive FileKey : Type := csvFile | pdfFile.

(** [{...prev, [field]: file}] on a form.  A key the form has not becomes a
    property that nothing reads: the cells of the form are as before. *)
Class Form (F : Type) : Type := {
  assign : FileKey -> option File -> F -> F
}.

#[export] Instance questions_form : Form QuestionsForm := {|
  assign field file prev :=
    match field with
    | csvFile => mkQuestionsForm file (qf_businessName prev) (qf_apiKey prev)
    | pdfFile => prev
    end
|}.

#[export] Instance swot_form : Form SwotForm := {|
  assign field file prev :=
    match field with
    | csvFile =>
        mkSwotForm file (sf_pdfFile prev) (sf_businessName prev) (sf_apiKey prev)
    | pdfFile =>
        mkSwotForm (sf_csvFile prev) file (sf_businessName prev) (sf_apiKey prev)
    end
|}.

(** [setQuestionsForm(update)], the updater applied to the current form. *)
Definition setQuestionsForm (s : State)
    (update : QuestionsForm -> QuestionsForm) : M Event unit :=
  emit (SetQuestionsForm (update (questionsForm s))).

Definition setSwotForm (s : State) (update : SwotForm -> SwotForm)
    : M Event unit :=
  emit (SetSwotForm (update (swotForm s))).

Definition handleFileUpload {F : Type} `{Form F} (file : option File)
    (form : F) (field : FileKey) (setter : (F -> F) -> M Event unit)
    : M Event unit :=
  setter (fun prev => assign field file prev).

(** [onChange={(e) => onFileSelect(e.target.files[0])}] of [FileUploadBox]:
    the first chosen file, [undefined] when the chooser was cancelled. *)
Definition onChange (files : list File)
    (onFileSelect : option File -> M Event unit) : M Event unit :=
  onFileSelect (hd_error files).

(** *** The page and its user *)

Inductive Action : Type :=
| ClickTab (t : Tab)
| ChooseQuestionsCsv (files : list File)
| TypeQuestionsName (v : string)
| TypeQuestionsKey (v : string)
| SubmitQuestions (r : Reply (Response QuestionsData))
| DownloadQuestions (r : Reply Download)
| ChooseSwotCsv (files : list File)
| ChooseSwotPdf (files : list File)
| TypeSwotName (v : string)
| TypeSwotKey (v : string)
| SubmitSwot (r : Reply (Response SwotData))
| DownloadSwot (r : Reply Download).

(** The control of the action is rendered and not disabled. *)
Definition available (s : State) (a : Action) : bool :=
  match a with
  | ClickTab _ => true
  | ChooseQuestionsCsv _ | TypeQuestionsName _ | TypeQuestionsKey _ =>
      tab_eqb (activeTab s) TabQuestions
  | SubmitQuestions _ =>
      tab_eqb (activeTab s) TabQuestions && negb (questions_button_disabled s)
  | DownloadQuestions _ =>
      tab_eqb (activeTab s) TabQuestions && present (questionsResult s)
  | ChooseSwotCsv _ | ChooseSwotPdf _ | TypeSwotName _ | TypeSwotKey _ =>
      tab_eqb (activeTab s) TabSwot
  | SubmitSwot _ =>
      tab_eqb (activeTab s) TabSwot && negb (swot_button_disabled s)
  | DownloadSwot _ =>
      tab_eqb (activeTab s) TabSwot && present (swotResult s)
  end.

Definition handler (s : State) (a : Action) : M Event unit :=
  match a with
  | ClickTab t => emit (SetActiveTab t)
  | ChooseQuestionsCsv files =>
      onChange files (fun file =>
        handleFileUpload file (questionsForm s) csvFile (setQuestionsForm s))
  | TypeQuestionsName v =>
      setQuestionsForm s (fun prev =>
        mkQuestionsForm (qf_csvFile prev) v (qf_apiKey prev))
  | TypeQuestionsKey v =>
      setQuestionsForm s (fun prev =>
        mkQuestionsForm (qf_csvFile prev) (qf_businessName prev) v)
  | SubmitQuestions r => generateQuestions s r
  | DownloadQuestions r =>
      match questionsResult s with
      | Some result =>
          downloadPdf (q_pdf_id result)
            (q_business_name result ++ "_questionnaire.pdf") r
      | None => ret tt
      end
  | ChooseSwotCsv files =>
      onChange files (fun file =>
        handleFileUpload file (swotForm s) csvFile (setSwotForm s))
  | ChooseSwotPdf files =>
      onChange files (fun file =>
        handleFileUpload file (swotForm s) pdfFile (setSwotForm s))
  | TypeSwotName v =>
      setSwotForm s (fun prev =>
        mkSwotForm (sf_csvFile prev) (sf_pdfFile prev) v (sf_apiKey prev))
  | TypeSwotKey v =>
      setSwotForm s (fun prev =>
        mkSwotForm (sf_csvFile prev) (sf_pdfFile prev) (sf_businessName prev) v)
  | SubmitSwot r => generateSwot s r
  | DownloadSwot r =>
      match swotResult s with
      | Some result =>
          downloadPdf (s_pdf_id result)
            (s_business_name result ++ "_analyse_SWOT.pdf") r
      | None => ret tt
      end
  end.

(** One user action, its handler run to completion. *)
Definition step (s : State) (a : Action) : State * list Event :=
  if available s a
  then let t := trace (handler s a) in (replay t s, t)
  else (s, []).

Fixpoint run (s : State) (actions : list Action) : State * list Event :=
  match actions with
  | [] => (s, [])
  | a :: rest =>
      let (s1, t1) := step s a in
      let (s2, t2) := run s1 rest in
      (s2, t1 ++ t2)
  end.

(** *** More readers of a trace *)

Definition filled (p : Part) : bool :=
  match p with
  | PFile f => present f
  | PText v => truthy v
  end.

(** A transport call whose every part carries something. *)
Definition complete (ev : Event) : bool :=
  match ev with
  | Fetch _ _ body => forallb (fun part => filled (snd part)) body
  | _ => true
  end.

Definition is_click (ev : Event) : bool :=
  match ev with
  | AnchorClick _ _ => true
  | _ => false
  end.

End Hosted.

(** * Properties *)

(** ** Truthiness and replay *)

Lemma truthy_true (s : string) : truthy s = true <-> s <> "".
Proof.
  destruct s; simpl; split; intro H; congruence.
Qed.

Lemma truthy_false (s : string) : truthy s = false <-> s = "".
Proof.
  destruct s; simpl; split; intro H; congruence.
Qed.

Lemma local_replay_app (t1 t2 : list Local.Event) (s : Local.State) :
  Local.replay (t1 ++ t2) s = Local.replay t2 (Local.replay t1 s).
Proof. unfold Local.replay. apply fold_left_app. Qed.

Lemma hosted_replay_app (t1 t2 : list Hosted.Event) (s : Hosted.State) :
  Hosted.replay (t1 ++ t2) s = Hosted.replay t2 (Hosted.replay t1 s).
Proof. unfold Hosted.replay. apply fold_left_app. Qed.

(** ** The traces of the two generation handlers of the desktop application *)

Section LocalTraces.
Import Local.

Variable s : State.

Lemma generateQuestions_guard (r : Reply (list string)) :
  csvPath s = "" \/ businessName s = "" ->
  generateQuestions s r =
  (Normal tt, [Alert "Please select a CSV file and enter a business name"]).
Proof.
  unfold generateQuestions.
  intros [H | H]; rewrite H; simpl; [reflexivity |].
  now rewrite orb_true_r.
Qed.

Lemma generateQuestions_resolved (qs : list string) :
  csvPath s <> "" -> businessName s <> "" ->
  generateQuestions s (Ok qs) =
  (Normal tt,
   questions_prefix s ++
   [Resolved "generate_followup_questions";
    SetProgress 90; SetLoadingMessage "Processing results..."; Sleep 300;
    ConsoleLog [VStr "Generated questions:"; VList qs];
    SetQuestions qs;
    SetProgress 100; SetLoadingMessage "Complete!"] ++
   (if Nat.eqb (List.length qs) 0
    then [Alert "No questions were generated. Please check if the business name exists in the CSV file."]
    else []) ++
   cleanup).
Proof.
  intros Hc Hn. unfold generateQuestions, questions_prefix, cleanup.
  apply truthy_true in Hc, Hn. rewrite Hc, Hn.
  destruct qs; reflexivity.
Qed.

Lemma generateQuestions_rejected (e : string) :
  csvPath s <> "" -> businessName s <> "" ->
  generateQuestions s (Err e) =
  (Normal tt,
   questions_prefix s ++
   [Rejected "generate_followup_questions" e;
    ConsoleError [VStr "Error generating questions:"; VStr e];
    Alert ("Error generating questions: " ++ e)] ++
   cleanup).
Proof.
  intros Hc Hn. unfold generateQuestions, questions_prefix, cleanup.
  apply truthy_true in Hc, Hn. rewrite Hc, Hn.
  reflexivity.
Qed.

Lemma generateSwot_guard (r : Reply string) :
  swotCsvPath s = "" \/ pdfPath s = "" \/ swotBusinessName s = "" ->
  generateSwot s r =
  (Normal tt, [Alert "Please select CSV file, PDF file, and enter a business name"]).
Proof.
  unfold generateSwot.
  intros [H | [H | H]]; rewrite H; simpl;
    rewrite ?orb_true_r; reflexivity.
Qed.

Lemma generateSwot_resolved (analysis : string) :
  swotCsvPath s <> "" -> pdfPath s <> "" -> swotBusinessName s <> "" ->
  generateSwot s (Ok analysis) =
  (Normal tt,
   swot_prefix s ++
   [Resolved "generate_swot_analysis";
    SetProgress 95; SetLoadingMessage "Finalizing analysis..."; Sleep 300;
    SetSwotAnalysis analysis;
    SetProgress 100; SetLoadingMessage "Complete!"] ++
   cleanup).
Proof.
  intros Hc Hp Hn. unfold generateSwot, swot_prefix, cleanup.
  apply truthy_true in Hc, Hp, Hn. rewrite Hc, Hp, Hn.
  reflexivity.
Qed.

Lemma generateSwot_rejected (e : string) :
  swotCsvPath s <> "" -> pdfPath s <> "" -> swotBusinessName s <> "" ->
  generateSwot s (Err e) =
  (Normal tt,
   swot_prefix s ++
   [Rejected "generate_swot_analysis" e;
    Alert ("Error generating SWOT analysis: " ++ e)] ++
   cleanup).
Proof.
  intros Hc Hp Hn. unfold generateSwot, swot_prefix, cleanup.
  apply truthy_true in Hc, Hp, Hn. rewrite Hc, Hp, Hn.
  reflexivity.
Qed.

End LocalTraces.

(** ** Validation *)

Lemma blank_nonempty (v : string) : Spec.blank v = false -> v <> "".
Proof. intros H E. subst v. discriminate H. Qed.

Lemma reaches_transport_questions (s : Local.State) (r : Reply (list string)) :
  Local.reaches_transport (trace (Local.generateQuestions s r)) = true <->
  Local.csvPath s <> "" /\ Local.businessName s <> "".
Proof.
  split.
  - intro H.
    destruct (Local.csvPath s) eqn:Ec.
    { rewrite generateQuestions_guard in H by auto. discriminate H. }
    destruct (Local.businessName s) eqn:En.
    { rewrite generateQuestions_guard in H by auto. discriminate H. }
    split; discriminate.
  - intros [Hc Hn]. destruct r as [qs | e].
    + rewrite generateQuestions_resolved by assumption. reflexivity.
    + rewrite generateQuestions_rejected by assumption. reflexivity.
Qed.

Lemma reaches_transport_swot (s : Local.State) (r : Reply string) :
  Local.reaches_transport (trace (Local.generateSwot s r)) = true <->
  Local.swotCsvPath s <> "" /\ Local.pdfPath s <> "" /\
  Local.swotBusinessName s <> "".
Proof.
  split.
  - intro H.
    destruct (Local.swotCsvPath s) eqn:Ec.
    { rewrite generateSwot_guard in H by auto. discriminate H. }
    destruct (Local.pdfPath s) eqn:Ep.
    { rewrite generateSwot_guard in H by auto. discriminate H. }
    destruct (Local.swotBusinessName s) eqn:En.
    { rewrite generateSwot_guard in H by auto. discriminate H. }
    repeat split; discriminate.
  - intros (Hc & Hp & Hn). destruct r as [a | e].
    + rewrite generateSwot_resolved by assumption. reflexivity.
    + rewrite generateSwot_rejected by assumption. reflexivity.
Qed.

(** C1, as stated, fails: a business name made of one space is a missing
    field for the validator of the specification, and the handler of the
    desktop application starts the transport call with it. *)
Lemma blank_name_passes_the_guard :
  let r := Spec.QuestionsRequest "acme.csv" " " "sk-test" in
  Spec.validate r = Spec.MissingField Spec.businessName /\
  Local.reaches_transport
    (trace (Local.generateQuestions (Local.form_of r) (Ok ["Q1"]))) = true.
Proof. split; reflexivity. Qed.

(** C1, amended: a handler of the desktop application goes on to its
    transport call exactly when the fields of its form (CSV path and business
    name; for SWOT also the PDF path) are non-empty strings, white space
    counting as content and no credential being read; otherwise all it does
    is show one fixed alert, the same whichever field is empty.  A request
    the validator of the specification accepts always goes on. *)
Theorem guards_test_for_empty_strings
    (s : Local.State) (rq : Reply (list string)) (rs : Reply string) :
  (Local.reaches_transport (trace (Local.generateQuestions s rq)) = true <->
   Local.csvPath s <> "" /\ Local.businessName s <> "") /\
  (Local.reaches_transport (trace (Local.generateQuestions s rq)) = false <->
   Local.generateQuestions s rq =
   (Normal tt,
    [Local.Alert "Please select a CSV file and enter a business name"])) /\
  (Local.reaches_transport (trace (Local.generateSwot s rs)) = true <->
   Local.swotCsvPath s <> "" /\ Local.pdfPath s <> "" /\
   Local.swotBusinessName s <> "") /\
  (Local.reaches_transport (trace (Local.generateSwot s rs)) = false <->
   Local.generateSwot s rs =
   (Normal tt,
    [Local.Alert "Please select CSV file, PDF file, and enter a business name"])) /\
  (forall r, s = Local.form_of r -> Spec.validate r = Spec.Valid ->
   match r with
   | Spec.QuestionsRequest _ _ _ =>
       Local.reaches_transport (trace (Local.generateQuestions s rq)) = true
   | Spec.SwotRequest _ _ _ _ =>
       Local.reaches_transport (trace (Local.generateSwot s rs)) = true
   end).
Proof.
  split; [apply reaches_transport_questions |].
  split.
  { split.
    - intro H.
      destruct (Local.csvPath s) eqn:Ec.
      { apply generateQuestions_guard; auto. }
      destruct (Local.businessName s) eqn:En.
      { apply generateQuestions_guard; auto. }
      assert (Local.reaches_transport
                (trace (Local.generateQuestions s rq)) = true) as H1.
      { apply reaches_transport_questions. rewrite Ec, En.
        split; discriminate. }
      congruence.
    - intro H. rewrite H. reflexivity. }
  split; [apply reaches_transport_swot |].
  split.
  { split.
    - intro H.
      destruct (Local.swotCsvPath s) eqn:Ec.
      { apply generateSwot_guard; auto. }
      destruct (Local.pdfPath s) eqn:Ep.
      { apply generateSwot_guard; auto. }
      destruct (Local.swotBusinessName s) eqn:En.
      { apply generateSwot_guard; auto. }
      assert (Local.reaches_transport
                (trace (Local.generateSwot s rs)) = true) as H1.
      { apply reaches_transport_swot. rewrite Ec, Ep, En.
        repeat split; discriminate. }
      congruence.
    - intro H. rewrite H. reflexivity. }
  intros r -> Hv.
  destruct r as [csv name key | csv pdf name key];
    unfold Spec.validate in Hv; simpl in Hv.
  - destruct (Spec.blank csv) eqn:Bc; [discriminate |].
    destruct (Spec.blank name) eqn:Bn; [discriminate |].
    apply reaches_transport_questions. simpl.
    split; now apply blank_nonempty.
  - destruct (Spec.blank csv) eqn:Bc; [discriminate |].
    destruct (Spec.blank pdf) eqn:Bp; [discriminate |].
    destruct (Spec.blank name) eqn:Bn; [discriminate |].
    apply reaches_transport_swot. simpl.
    repeat split; now apply blank_nonempty.
Qed.

(** A run of [guards_test_for_empty_strings] on the request of scenario A. *)
Lemma guards_test_for_empty_strings_witness :
  Local.reaches_transport
    (trace (Local.generateQuestions
              (Local.form_of (Spec.QuestionsRequest "acme.csv" "Acme Corp" "sk-test"))
              (Ok ["Q1"]))) = true.
Proof.
  pose proof (guards_test_for_empty_strings
                (Local.form_of (Spec.QuestionsRequest "acme.csv" "Acme Corp" "sk-test"))
                (Ok ["Q1"]) (Ok "S")) as (_ & _ & _ & _ & H).
  exact (H (Spec.QuestionsRequest "acme.csv" "Acme Corp" "sk-test")
           eq_refl eq_refl).
Defined.



(** ** Progress *)

(** Unfolds a rewritten trace of a generation handler down to its events. *)
Ltac local_events :=
  unfold Local.display_at_release, Local.display_at_settlement, Local.job,
    Local.in_flight, Local.questions_prefix, Local.swot_prefix, Local.cleanup,
    trace;
  cbn [snd fst app].

(** C3, as stated, fails: when the backend rejects the call at 60%, the
    handler sets no progress of its own for the failure; the overlay a failed
    job is released with is the one the failure found. *)
Lemma failed_job_lingers_at_last_percentage :
  let s := Local.form_of (Spec.QuestionsRequest "acme.csv" "Acme Corp" "sk-test") in
  let t := trace (Local.generateQuestions s (Err "Business name not found")) in
  Local.display_at_settlement s t = Some ("Generating questions with AI...", 60%Z) /\
  Local.display_at_release s t = Some ("Generating questions with AI...", 60%Z) /\
  ~ Local.progress_as_specified s false t.
Proof.
  repeat split.
  intros [_ H]. apply H. reflexivity.
Qed.

(** C3, amended: in a job of the desktop application the percentages set
    from submission to the release of the slot never decrease.  A job whose
    call succeeds ends at 100, set once, under the label Complete!.  A job
    whose call fails sets no terminal state: the error goes to an alert and
    the overlay keeps the percentage and label the failure found (60 for
    questions, 70 for SWOT) until the slot is released. *)
Theorem progress_of_a_job (s : Local.State) :
  (Local.csvPath s <> "" -> Local.businessName s <> "" ->
   forall r : Reply (list string),
   let t := trace (Local.generateQuestions s r) in
   Local.nondecreasing (Local.percents (Local.job t)) = true /\
   match r with
   | Ok _ =>
       Local.percents (Local.job t) = [0; 20; 40; 60; 90; 100]%Z /\
       Local.count_percent 100 (Local.percents (Local.job t)) = 1%nat /\
       Local.display_at_release s t = Some ("Complete!", 100%Z)
   | Err e =>
       Local.percents (Local.job t) = [0; 20; 40; 60]%Z /\
       Local.display_at_settlement s t =
         Some ("Generating questions with AI...", 60%Z) /\
       Local.display_at_release s t = Local.display_at_settlement s t /\
       In (Local.Alert ("Error generating questions: " ++ e)) (Local.job t)
   end) /\
  (Local.swotCsvPath s <> "" -> Local.pdfPath s <> "" ->
   Local.swotBusinessName s <> "" ->
   forall r : Reply string,
   let t := trace (Local.generateSwot s r) in
   Local.nondecreasing (Local.percents (Local.job t)) = true /\
   match r with
   | Ok _ =>
       Local.percents (Local.job t) = [0; 15; 30; 50; 70; 95; 100]%Z /\
       Local.count_percent 100 (Local.percents (Local.job t)) = 1%nat /\
       Local.display_at_release s t = Some ("Complete!", 100%Z)
   | Err e =>
       Local.percents (Local.job t) = [0; 15; 30; 50; 70]%Z /\
       Local.display_at_settlement s t =
         Some ("Generating SWOT analysis with AI...", 70%Z) /\
       Local.display_at_release s t = Local.display_at_settlement s t /\
       In (Local.Alert ("Error generating SWOT analysis: " ++ e)) (Local.job t)
   end).
Proof.
  split.
  - intros Hc Hn [qs | e] t; subst t.
    + rewrite generateQuestions_resolved by assumption. local_events.
      destruct qs; destruct s; repeat split.
    + rewrite generateQuestions_rejected by assumption. local_events.
      destruct s; repeat split.
      simpl. tauto.
  - intros Hc Hp Hn [a | e] t; subst t.
    + rewrite generateSwot_resolved by assumption. local_events.
      destruct s; repeat split.
    + rewrite generateSwot_rejected by assumption. local_events.
      destruct s; repeat split.
      simpl. tauto.
Qed.

(** Scenario B on the desktop form: the backend does not find the name. *)
Lemma progress_of_a_job_witness :
  let s := Local.form_of (Spec.QuestionsRequest "acme.csv" "Acme Corp" "sk-test") in
  Local.percents
    (Local.job (trace (Local.generateQuestions s (Err "Business name not found"))))
  = [0; 20; 40; 60]%Z.
Proof.
  intro s.
  assert (Local.csvPath s <> "") as Hc by discriminate.
  assert (Local.businessName s <> "") as Hn by discriminate.
  destruct (progress_of_a_job s) as [H _].
  destruct (H Hc Hn (Err "Business name not found")) as (_ & Hp & _).
  exact Hp.
Defined.

(** C4: the questions handler emits the labels for reading the input
    0 to 20, finding the company record 20 to 40, preparing the prompt 40 to
    60, generating 60 to 90 and processing the results 90 to 100, then 100
    with Complete!; and 100 or Complete! is emitted only in a trace where the
    transport call has resolved, after that resolution. *)
Theorem questions_phase_sequence (s : Local.State) (r : Reply (list string)) :
  Local.csvPath s <> "" -> Local.businessName s <> "" ->
  let t := trace (Local.generateQuestions s r) in
  (forall qs, r = Ok qs ->
   Local.emissions (Local.job t) =
     [(0, "Reading CSV file..."); (20, "Finding company data...");
      (40, "Preparing AI prompt..."); (60, "Generating questions with AI...");
      (90, "Processing results..."); (100, "Complete!")]%Z /\
   Local.phases (Local.emissions (Local.job t)) =
     [("Reading CSV file...", 0, 20); ("Finding company data...", 20, 40);
      ("Preparing AI prompt...", 40, 60);
      ("Generating questions with AI...", 60, 90);
      ("Processing results...", 90, 100)]%Z) /\
  (In (Local.SetProgress 100) t \/ In (Local.SetLoadingMessage "Complete!") t ->
   exists qs pre post,
     r = Ok qs /\
     t = pre ++ Local.Resolved "generate_followup_questions" :: post /\
     ~ In (Local.SetProgress 100) pre /\
     ~ In (Local.SetLoadingMessage "Complete!") pre).
Proof.
  intros Hc Hn t; subst t. split.
  - intros qs ->.
    rewrite generateQuestions_resolved by assumption. local_events.
    destruct qs; split; reflexivity.
  - destruct r as [qs | e].
    + intros _. exists qs, (Local.questions_prefix s).
      rewrite generateQuestions_resolved by assumption.
      eexists. split; [reflexivity |]. split; [reflexivity |].
      unfold Local.questions_prefix. simpl.
      split; intro H; decompose [or] H; discriminate || contradiction.
    + rewrite generateQuestions_rejected by assumption.
      unfold Local.questions_prefix, Local.cleanup. simpl.
      intro H; decompose [or] H; discriminate || contradiction.
Qed.

(** Scenario A on the desktop form. *)
Lemma questions_phase_sequence_witness :
  let s := Local.form_of (Spec.QuestionsRequest "acme.csv" "Acme Corp" "sk-test") in
  Local.phases
    (Local.emissions
       (Local.job (trace (Local.generateQuestions s (Ok ["Q1"; "Q2"]))))) =
  [("Reading CSV file...", 0, 20); ("Finding company data...", 20, 40);
   ("Preparing AI prompt...", 40, 60);
   ("Generating questions with AI...", 60, 90);
   ("Processing results...", 90, 100)]%Z.
Proof.
  intro s.
  assert (Local.csvPath s <> "") as Hc by discriminate.
  assert (Local.businessName s <> "") as Hn by discriminate.
  destruct (questions_phase_sequence s (Ok ["Q1"; "Q2"]) Hc Hn) as [H _].
  destruct (H ["Q1"; "Q2"] eq_refl) as [_ Hp].
  exact Hp.
Defined.

(** C8: when the call resolves with no question, the handler takes the
    path of a success: it stores the empty list, reaches 100 with Complete!,
    then warns the user in an alert; it shows no error alert and ends
    normally, the slot being released by the timer. *)
Theorem empty_result_is_a_warning (s : Local.State) :
  Local.csvPath s <> "" -> Local.businessName s <> "" ->
  let m := Local.generateQuestions s (Ok []) in
  completion m = Normal tt /\
  Local.display_at_release s (trace m) = Some ("Complete!", 100%Z) /\
  (exists pre post,
     trace m =
     pre ++ Local.SetProgress 100 :: Local.SetLoadingMessage "Complete!" ::
     Local.Alert "No questions were generated. Please check if the business name exists in the CSV file."
     :: post /\
     In (Local.Resolved "generate_followup_questions") pre) /\
  (forall e, ~ In (Local.Alert ("Error generating questions: " ++ e)) (trace m)) /\
  Local.questions (Local.replay (trace m) s) = [] /\
  Local.loading (Local.replay (trace m) s) = false.
Proof.
  intros Hc Hn m; subst m.
  rewrite generateQuestions_resolved by assumption.
  split; [reflexivity |].
  split; [local_events; destruct s; reflexivity |].
  split.
  { eexists (Local.questions_prefix s ++ [_; _; _; _; _; _]), _.
    split.
    - unfold trace. cbn [snd List.length Nat.eqb].
      rewrite <- app_assoc. reflexivity.
    - apply in_or_app. right. left. reflexivity. }
  split.
  { intros e. local_events. simpl.
    intro H; decompose [or] H; discriminate || contradiction. }
  split; local_events; destruct s; reflexivity.
Qed.

(** An empty list of questions for the request of scenario A. *)
Lemma empty_result_is_a_warning_witness :
  let s := Local.form_of (Spec.QuestionsRequest "acme.csv" "Acme Corp" "sk-test") in
  Local.display_at_release s (trace (Local.generateQuestions s (Ok []))) =
  Some ("Complete!", 100%Z).
Proof.
  intro s.
  assert (Local.csvPath s <> "") as Hc by discriminate.
  assert (Local.businessName s <> "") as Hn by discriminate.
  destruct (empty_result_is_a_warning s Hc Hn) as (_ & H & _).
  exact H.
Defined.

(** ** Sessions *)

(** C5, as stated, fails on the desktop application: with both forms
    filled, a SWOT job in flight occupies the questions workflow as well (its
    button is disabled and reads Generating...), and the questions handler,
    run in that state, is not rejected: it issues its own transport call. *)
Lemma workflows_share_one_slot :
  let s := Local.mkState "Ollama is running" true false "" 0 Local.TabSwot
             "acme.csv" "Acme Corp" [] "acme.csv" "answers.pdf" "Acme Corp" "" in
  let busy := Local.in_flight s (trace (Local.generateSwot s (Ok "S"))) in
  Local.questions_button_disabled s = false /\
  Local.questions_button_disabled busy = true /\
  Local.questions_button_label busy = "Generating..." /\
  Local.reaches_transport (trace (Local.generateQuestions busy (Ok ["Q1"]))) = true.
Proof. repeat split. Qed.

(** Splits a reply of the web backend into its five shapes. *)
Ltac hosted_reply r :=
  let body := fresh "body" in
  let e := fresh "e" in
  destruct r as [[[ | ] [body | e]] | e].

(** C5, amended: in the web application each workflow has its own loading
    flag and result, and a job of one leaves the flag, the button and the
    result of the other as they were; in the desktop application the two
    workflows share one loading flag, so a job in flight disables both
    buttons.  In both, the disabled button is all that stands against a
    second submission: the handlers do not read the flag and nothing is
    rejected with a busy error.  Each handler clears its flag at its end. *)
Theorem slots_and_busy_buttons :
  (forall (s : Hosted.State) (r : Reply (Hosted.Response Hosted.QuestionsData)),
   let t := trace (Hosted.generateQuestions s r) in
   let busy := Hosted.in_flight s t in
   Hosted.questionsLoading busy = true /\
   Hosted.questions_button_disabled busy = true /\
   Hosted.swotLoading busy = Hosted.swotLoading s /\
   Hosted.swot_button_disabled busy = Hosted.swot_button_disabled s /\
   Hosted.questionsLoading (Hosted.replay t s) = false /\
   Hosted.swotResult (Hosted.replay t s) = Hosted.swotResult s) /\
  (forall (s : Hosted.State) (r : Reply (Hosted.Response Hosted.SwotData)),
   let t := trace (Hosted.generateSwot s r) in
   let busy := Hosted.in_flight s t in
   Hosted.swotLoading busy = true /\
   Hosted.swot_button_disabled busy = true /\
   Hosted.questionsLoading busy = Hosted.questionsLoading s /\
   Hosted.questions_button_disabled busy = Hosted.questions_button_disabled s /\
   Hosted.swotLoading (Hosted.replay t s) = false /\
   Hosted.questionsResult (Hosted.replay t s) = Hosted.questionsResult s) /\
  (forall (s : Local.State) (r : Reply (list string)),
   Local.csvPath s <> "" -> Local.businessName s <> "" ->
   let t := trace (Local.generateQuestions s r) in
   let busy := Local.in_flight s t in
   Local.loading busy = true /\
   Local.questions_button_disabled busy = true /\
   Local.swot_button_disabled busy = true /\
   Local.loading (Local.replay t s) = false /\
   Local.swotAnalysis (Local.replay t s) = Local.swotAnalysis s) /\
  (forall (s : Local.State) (r : Reply string),
   Local.swotCsvPath s <> "" -> Local.pdfPath s <> "" ->
   Local.swotBusinessName s <> "" ->
   let t := trace (Local.generateSwot s r) in
   let busy := Local.in_flight s t in
   Local.loading busy = true /\
   Local.questions_button_disabled busy = true /\
   Local.swot_button_disabled busy = true /\
   Local.loading (Local.replay t s) = false /\
   Local.questions (Local.replay t s) = Local.questions s) /\
  (forall (s : Local.State) (b : bool) rq rs,
   Local.generateQuestions (Local.apply_event (Local.SetLoading b) s) rq =
   Local.generateQuestions s rq /\
   Local.generateSwot (Local.apply_event (Local.SetLoading b) s) rs =
   Local.generateSwot s rs) /\
  (forall (s : Hosted.State) (b : bool) rq rs,
   Hosted.generateQuestions
     (Hosted.apply_event (Hosted.SetQuestionsLoading b) s) rq =
   Hosted.generateQuestions s rq /\
   Hosted.generateSwot (Hosted.apply_event (Hosted.SetSwotLoading b) s) rs =
   Hosted.generateSwot s rs).
Proof.
  split; [| split; [| split; [| split; [| split]]]].
  - intros s r t busy; subst busy t.
    hosted_reply r; destruct s; repeat split.
  - intros s r t busy; subst busy t.
    hosted_reply r; destruct s; repeat split.
  - intros s r Hc Hn t busy; subst busy t.
    destruct r as [qs | e].
    + rewrite generateQuestions_resolved by assumption. local_events.
      destruct qs; destruct s; repeat split.
    + rewrite generateQuestions_rejected by assumption. local_events.
      destruct s; repeat split.
  - intros s r Hc Hp Hn t busy; subst busy t.
    destruct r as [a | e].
    + rewrite generateSwot_resolved by assumption. local_events.
      destruct s; repeat split.
    + rewrite generateSwot_rejected by assumption. local_events.
      destruct s; repeat split.
  - intros s b rq rs. destruct s; split; reflexivity.
  - intros s b rq rs. destruct s; split; reflexivity.
Qed.

(** The state of [workflows_share_one_slot], through the amended claim. *)
Lemma slots_and_busy_buttons_witness :
  let s := Local.mkState "Ollama is running" true false "" 0 Local.TabSwot
             "acme.csv" "Acme Corp" [] "acme.csv" "answers.pdf" "Acme Corp" "" in
  Local.questions_button_disabled
    (Local.in_flight s (trace (Local.generateSwot s (Ok "S")))) = true.
Proof.
  intro s.
  destruct slots_and_busy_buttons as (_ & _ & _ & H & _).
  assert (Local.swotCsvPath s <> "") as Hc by discriminate.
  assert (Local.pdfPath s <> "") as Hp by discriminate.
  assert (Local.swotBusinessName s <> "") as Hn by discriminate.
  destruct (H s (Ok "S") Hc Hp Hn) as (_ & Hq & _).
  exact Hq.
Defined.

(** ** Readiness *)

Section Readiness.
Import Local.

Lemma guarded_by_readiness_app (t1 t2 : list Event) :
  forall ready,
  guarded_by_readiness ready (t1 ++ t2) =
  guarded_by_readiness ready t1
  && guarded_by_readiness (ready || existsb is_check_resolved t1) t2.
Proof.
  induction t1 as [| ev t1 IH]; intro ready; simpl.
  - now rewrite orb_false_r.
  - destruct (invokes_generation ev) eqn:G.
    + rewrite IH. destruct ev; try discriminate G. simpl.
      now rewrite andb_assoc.
    + rewrite IH. now rewrite orb_assoc.
Qed.

Lemma guarded_by_readiness_mono (t : list Event) :
  forall ready, guarded_by_readiness ready t = true ->
  guarded_by_readiness true t = true.
Proof.
  induction t as [| ev t IH]; intros ready H; simpl in *; trivial.
  destruct (invokes_generation ev).
  - apply andb_true_iff in H as [_ H]. eauto.
  - eauto.
Qed.

(** The boolean reading of a trace, in words of positions. *)
Lemma guarded_by_readiness_sound (t : list Event) :
  forall ready, guarded_by_readiness ready t = true ->
  forall pre ev post, t = pre ++ ev :: post -> invokes_generation ev = true ->
  ready = true \/ In (Resolved "check_ollama_status") pre.
Proof.
  induction t as [| x t IH]; intros ready H pre ev post E G.
  - destruct pre; discriminate E.
  - destruct pre as [| y pre]; simpl in E; injection E as -> ->.
    + simpl in H. rewrite G in H.
      apply andb_true_iff in H as [H _]. now left.
    + simpl in H. destruct (invokes_generation y) eqn:Gy.
      * apply andb_true_iff in H as [H _]. now left.
      * destruct (IH _ H pre ev post eq_refl G) as [R | R].
        -- apply orb_true_iff in R as [R | R]; [now left |].
           right. left. destruct y; try discriminate R.
           simpl in R. apply String.eqb_eq in R. now subst.
        -- right. now right.
Qed.

Lemma checkOllamaStatus_trace (r : Reply string) :
  trace (checkOllamaStatus r) =
  match r with
  | Ok status =>
      [Invoke "check_ollama_status" []; Resolved "check_ollama_status";
       SetOllamaStatus status; SetIsOllamaReady true]
  | Err e =>
      [Invoke "check_ollama_status" []; Rejected "check_ollama_status" e;
       SetOllamaStatus e; SetIsOllamaReady false]
  end.
Proof. destruct r; reflexivity. Qed.

(** Closes a case of [step_readiness] once its trace is explicit. *)
Ltac ready_kept :=
  simpl;
  split;
  [ reflexivity
  | let H := fresh in
    intro H; try rewrite H; simpl; rewrite ?orb_true_r;
    solve [reflexivity | discriminate] ].

Lemma step_readiness (s : State) (a : Action) :
  guarded_by_readiness (isOllamaReady s) (snd (step s a)) = true /\
  (isOllamaReady (fst (step s a)) = true ->
   isOllamaReady s || existsb is_check_resolved (snd (step s a)) = true).
Proof.
  unfold step. destruct (available s a) eqn:Hav; [| ready_kept].
  cbn [fst snd].
  destruct a; cbn [handler].
  - (* the retry button *)
    rewrite checkOllamaStatus_trace.
    destruct r; destruct s; ready_kept.
  - destruct s; ready_kept.
  - destruct s; unfold selectCsvFile; simpl.
    destruct r as [[[| c p] |] | e]; ready_kept.
  - destruct s; ready_kept.
  - (* the questions button, enabled *)
    simpl in Hav. unfold questions_button_disabled in Hav.
    repeat (apply andb_true_iff in Hav as [Hav ?]).
    unfold main_rendered in Hav.
    match goal with H : negb _ = true |- _ =>
      apply negb_true_iff in H;
      apply orb_false_iff in H as [H Hn];
      apply orb_false_iff in H as [_ Hc];
      apply negb_false_iff in Hc, Hn;
      apply truthy_true in Hc, Hn
    end.
    destruct r as [qs | e].
    + rewrite generateQuestions_resolved by assumption.
      rewrite Hav. unfold trace, questions_prefix, cleanup. cbn [snd app].
      destruct qs; destruct s; ready_kept.
    + rewrite generateQuestions_rejected by assumption.
      rewrite Hav. unfold trace, questions_prefix, cleanup. cbn [snd app].
      destruct s; ready_kept.
  - destruct s as [st rdy ld msg pr tab csv name qs scsv pdf sname swot].
    unfold saveQuestionsToPdf; simpl.
    destruct qs as [| q qs]; [ready_kept |].
    destruct dest as [[[| c p] |] | e]; try destruct r as [[] | e'];
      ready_kept.
  - destruct s; unfold selectCsvFile; simpl.
    destruct r as [[[| c p] |] | e]; ready_kept.
  - destruct s; unfold selectPdfFile; simpl.
    destruct r as [[[| c p] |] | e]; ready_kept.
  - destruct s; ready_kept.
  - (* the SWOT button, enabled *)
    simpl in Hav. unfold swot_button_disabled in Hav.
    repeat (apply andb_true_iff in Hav as [Hav ?]).
    unfold main_rendered in Hav.
    match goal with H : negb _ = true |- _ =>
      apply negb_true_iff in H;
      apply orb_false_iff in H as [H Hn];
      apply orb_false_iff in H as [H Hp];
      apply orb_false_iff in H as [_ Hc];
      apply negb_false_iff in Hc, Hp, Hn;
      apply truthy_true in Hc, Hp, Hn
    end.
    destruct r as [an | e].
    + rewrite generateSwot_resolved by assumption.
      rewrite Hav. unfold trace, swot_prefix, cleanup. cbn [snd app].
      destruct s; ready_kept.
    + rewrite generateSwot_rejected by assumption.
      rewrite Hav. unfold trace, swot_prefix, cleanup. cbn [snd app].
      destruct s; ready_kept.
  - destruct s as [st rdy ld msg pr tab csv name qs scsv pdf sname swot].
    unfold saveSwotToPdf; simpl.
    destruct swot as [| c0 swot]; [ready_kept |].
    destruct dest as [[[| c p] |] | e]; try destruct r as [[] | e'];
      ready_kept.
Qed.

Lemma run_readiness (actions : list Action) :
  forall (s : State) (ready : bool),
  (isOllamaReady s = true -> ready = true) ->
  guarded_by_readiness ready (snd (run s actions)) = true.
Proof.
  induction actions as [| a actions IH]; intros s ready Hr; simpl; trivial.
  destruct (step_readiness s a) as [Hg Hs].
  destruct (step s a) as [s1 t1] eqn:E1. cbn [fst snd] in Hg, Hs.
  specialize (IH s1 (ready || existsb is_check_resolved t1)).
  destruct (run s1 actions) as [s2 t2]. cbn [fst snd] in *.
  rewrite guarded_by_readiness_app.
  apply andb_true_iff. split.
  - destruct (isOllamaReady s).
    + now rewrite Hr.
    + destruct ready; trivial.
      now apply guarded_by_readiness_mono with (ready := false).
  - apply IH. intro H1. apply Hs in H1.
    apply orb_true_iff in H1 as [H1 | H1].
    + now rewrite (Hr H1).
    + rewrite H1. apply orb_true_r.
Qed.

Lemma session_readiness (mount : Reply string) (actions : list Action) :
  guarded_by_readiness false (snd (session mount actions)) = true.
Proof.
  unfold session. rewrite checkOllamaStatus_trace.
  pose proof (run_readiness actions) as H.
  destruct mount as [status | e].
  - specialize (H (replay
                     [Invoke "check_ollama_status" [];
                      Resolved "check_ollama_status";
                      SetOllamaStatus status; SetIsOllamaReady true]
                     initial_state) true (fun _ => eq_refl)).
    destruct (run _ actions) as [s t]. exact H.
  - specialize (H (replay
                     [Invoke "check_ollama_status" [];
                      Rejected "check_ollama_status" e;
                      SetOllamaStatus e; SetIsOllamaReady false]
                     initial_state) false).
    destruct (run _ actions) as [s t]. apply H.
    simpl. discriminate.
Qed.

End Readiness.

(** C6, as stated, fails.  In the desktop application a submission made
    while the check has failed is answered by nothing, no failure being
    produced for it (the button is not on the page), and the handler itself
    has no test of readiness: run on a filled form of an unready state it
    issues its transport call.  The web application has no readiness check:
    its first submission goes straight to the transport. *)
Lemma unready_submission_gets_no_failure :
  let s := fst (Local.session (Err "Ollama is not running") []) in
  let filled := Local.mkState "Ollama is not running" false false "" 0
                  Local.TabQuestions "acme.csv" "Acme Corp" [] "" "" "" "" in
  let form := Hosted.mkState Hosted.TabQuestions
                (Hosted.mkQuestionsForm (Some "acme.csv") "Acme Corp" "sk-test")
                (Hosted.mkSwotForm None None "" "") false false None None None in
  let data := Hosted.mkQuestionsData "Acme Corp" 62
                (Some ["Q1"; "Q2"; "Q3"; "Q4"; "Q5"]) "abc123" in
  Local.isOllamaReady s = false /\
  Local.step s (Local.ClickGenerateQuestions (Ok ["Q1"])) = (s, []) /\
  Local.reaches_transport
    (trace (Local.generateQuestions filled (Ok ["Q1"]))) = true /\
  Hosted.questions_button_disabled form = false /\
  trace (Hosted.generateQuestions form
           (Ok (Hosted.mkResponse true (Ok (Hosted.mkBody Hosted.NoDetail data))))) =
  [Hosted.PreventDefault; Hosted.SetQuestionsLoading true;
   Hosted.SetError None; Hosted.SetQuestionsResult None;
   Hosted.Fetch "POST" "http://localhost:8000/api/generate-questions"
     [("csv_file", Hosted.PFile (Some "acme.csv"));
      ("business_name", Hosted.PText "Acme Corp");
      ("api_key", Hosted.PText "sk-test")];
   Hosted.ReadJson; Hosted.SetQuestionsResult (Some data);
   Hosted.SetQuestionsLoading false].
Proof. repeat split. Qed.

(** C6, amended: in a lifetime of the desktop application, which starts
    with the check made on mount, every generation call comes after a
    readiness check that resolved.  While the application is not ready the
    only control on the page is the retry button, whose click runs the check
    again; no other action is available, a click on a generation button does
    nothing and produces no failure. *)
Theorem generation_waits_for_readiness
    (mount : Reply string) (actions : list Local.Action) :
  let s := fst (Local.session mount actions) in
  let t := snd (Local.session mount actions) in
  (forall pre ev post,
   t = pre ++ ev :: post -> Local.invokes_generation ev = true ->
   In (Local.Resolved "check_ollama_status") pre) /\
  (Local.isOllamaReady s = false ->
   Local.retry_button_rendered s = true /\
   (forall r,
    Local.available s (Local.ClickRetry r) = true /\
    Local.handler s (Local.ClickRetry r) = Local.checkOllamaStatus r /\
    In (Local.Invoke "check_ollama_status" [])
       (snd (Local.step s (Local.ClickRetry r)))) /\
   (forall a, Local.available s a = true -> exists r, a = Local.ClickRetry r) /\
   (forall rq, Local.step s (Local.ClickGenerateQuestions rq) = (s, [])) /\
   (forall rs, Local.step s (Local.ClickGenerateSwot rs) = (s, []))).
Proof.
  intros s t. split.
  - intros pre ev post E G.
    destruct (guarded_by_readiness_sound t false
                (session_readiness mount actions) pre ev post E G)
      as [H | H]; [discriminate H | exact H].
  - clear t. clearbody s. intro Hr.
    assert (forall a, Local.available s a = true ->
                      exists r, a = Local.ClickRetry r) as Hav.
    { intros a Ha.
      destruct a; simpl in Ha; unfold Local.main_rendered in Ha;
        try (rewrite Hr in Ha; discriminate Ha).
      eexists; reflexivity. }
    assert (forall a, (forall r, a <> Local.ClickRetry r) ->
                      Local.step s a = (s, [])) as Hstep.
    { intros a Ha. unfold Local.step.
      destruct (Local.available s a) eqn:E; trivial.
      destruct (Hav a E) as [r ->]. now elim (Ha r). }
    unfold Local.retry_button_rendered. rewrite Hr.
    split; [reflexivity |].
    split.
    { intro r.
      assert (Local.available s (Local.ClickRetry r) = true) as Ha.
      { simpl. unfold Local.retry_button_rendered. now rewrite Hr. }
      split; [exact Ha |]. split; [reflexivity |].
      unfold Local.step. rewrite Ha.
      cbn [snd Local.handler]. rewrite checkOllamaStatus_trace.
      destruct r; left; reflexivity. }
    split; [exact Hav |].
    split; intros; apply Hstep; discriminate.
Qed.

(** Scenario D: the check fails on mount, a first submission is attempted,
    the retry succeeds, the form is filled and submitted. *)
Lemma generation_waits_for_readiness_witness :
  let actions :=
    [Local.ClickGenerateQuestions (Ok ["Q1"]);
     Local.ClickRetry (Ok "Ollama is running");
     Local.BrowseCsv (Ok (Some "acme.csv"));
     Local.TypeBusinessName "Acme Corp";
     Local.ClickGenerateQuestions (Ok ["Q1"])] in
  let t := snd (Local.session (Err "Ollama is not running") actions) in
  Local.reaches_transport t = true /\
  In (Local.Resolved "check_ollama_status") (firstn 26 t) /\
  Local.step (fst (Local.session (Err "Ollama is not running") []))
    (Local.ClickGenerateSwot (Ok "S")) =
  (fst (Local.session (Err "Ollama is not running") []), []).
Proof.
  intros actions t.
  split; [reflexivity |].
  split.
  - apply (proj1 (generation_waits_for_readiness
                    (Err "Ollama is not running") actions)
             (firstn 26 t) (nth 26 t (Local.Sleep 0)) (skipn 27 t)).
    + reflexivity.
    + reflexivity.
  - apply (proj2 (generation_waits_for_readiness
                    (Err "Ollama is not running") [])).
    reflexivity.
Defined.

(** ** Errors *)


Section HostedErrors.
Import Hosted.



End HostedErrors.



(** ** The preview of the web application *)

(** C9: under a result that has a preview, the paragraph below the
    preview shows the count of the result minus 5, an exact subtraction on
    integers with no lower bound, so the number shown is negative whenever
    the count is less than 5; and a successful submission puts its result on
    the questions panel. *)
Theorem additional_questions_unclamped
    (r : Hosted.QuestionsData) (l : list string) :
  Hosted.questions_preview r = Some l ->
  Hosted.preview r =
    Some (Hosted.numbered 0 l,
          [Hosted.Text "... et ";
           Hosted.Number (Hosted.questions_count r - 5);
           Hosted.Text " questions supplémentaires dans le PDF"]) /\
  Hosted.additional_questions r = (Hosted.questions_count r - 5)%Z /\
  (Hosted.questions_count r < 5 -> Hosted.additional_questions r < 0)%Z /\
  (forall (s : Hosted.State) (d : Hosted.Detail),
   Hosted.activeTab s = Hosted.TabQuestions ->
   Hosted.questions_panel
     (Hosted.replay
        (trace (Hosted.generateQuestions s
                  (Ok (Hosted.mkResponse true (Ok (Hosted.mkBody d r))))))
        s) = Some r).
Proof.
  intro Hp. unfold Hosted.preview, Hosted.additional_questions.
  rewrite Hp. repeat split.
  - lia.
  - intros s d Ht. destruct s; simpl in *. now rewrite Ht.
Qed.

(** A result of three questions: the paragraph announces -2 more. *)
Lemma additional_questions_unclamped_witness :
  let r := Hosted.mkQuestionsData "Acme Corp" 3 (Some ["Q1"; "Q2"; "Q3"]) "abc123" in
  Hosted.preview r =
    Some ([[Hosted.Number 1; Hosted.Text "."; Hosted.Text "Q1"];
           [Hosted.Number 2; Hosted.Text "."; Hosted.Text "Q2"];
           [Hosted.Number 3; Hosted.Text "."; Hosted.Text "Q3"]],
          [Hosted.Text "... et "; Hosted.Number (-2);
           Hosted.Text " questions supplémentaires dans le PDF"]) /\
  (Hosted.additional_questions r < 0)%Z.
Proof.
  intro r.
  destruct (additional_questions_unclamped r ["Q1"; "Q2"; "Q3"] eq_refl)
    as (H1 & _ & H3 & _).
  split; [exact H1 | apply H3; reflexivity].
Defined.

(** ** The frame of a submission of the web application *)

(** C10: a submission of the web application issues its transport call
    in a state where the shared error is cleared and the result of its own
    workflow is cleared, the form and the result of the other workflow and
    its own form being as before; the other workflow stays untouched to the
    end, and after a failed submission the result of the workflow is still
    cleared, so its panel shows nothing. *)
Theorem submission_clears_own_result (s : Hosted.State) :
  (forall r : Reply (Hosted.Response Hosted.QuestionsData),
   let t := trace (Hosted.generateQuestions s r) in
   let busy := Hosted.in_flight s t in
   let final := Hosted.replay t s in
   existsb Hosted.is_fetch t = true /\
   Hosted.error busy = None /\ Hosted.questionsResult busy = None /\
   Hosted.questionsForm busy = Hosted.questionsForm s /\
   Hosted.swotForm busy = Hosted.swotForm s /\
   Hosted.swotResult busy = Hosted.swotResult s /\
   Hosted.swotForm final = Hosted.swotForm s /\
   Hosted.swotResult final = Hosted.swotResult s /\
   (Hosted.failed r = true ->
    Hosted.questionsResult final = None /\ Hosted.questions_panel final = None)) /\
  (forall r : Reply (Hosted.Response Hosted.SwotData),
   let t := trace (Hosted.generateSwot s r) in
   let busy := Hosted.in_flight s t in
   let final := Hosted.replay t s in
   existsb Hosted.is_fetch t = true /\
   Hosted.error busy = None /\ Hosted.swotResult busy = None /\
   Hosted.swotForm busy = Hosted.swotForm s /\
   Hosted.questionsForm busy = Hosted.questionsForm s /\
   Hosted.questionsResult busy = Hosted.questionsResult s /\
   Hosted.questionsForm final = Hosted.questionsForm s /\
   Hosted.questionsResult final = Hosted.questionsResult s /\
   (Hosted.failed r = true ->
    Hosted.swotResult final = None /\ Hosted.swot_panel final = None)).
Proof.
  split; intros r t busy final; subst final busy t.
  - hosted_reply r; destruct s as [[] ? ? ? ? ? ? ?];
      repeat split; discriminate.
  - hosted_reply r; destruct s as [[] ? ? ? ? ? ? ?];
      repeat split; discriminate.
Qed.

(** A second submission fails after a first that succeeded: the result of
    the first is no longer on the panel. *)
Lemma submission_clears_own_result_witness :
  let shown := Hosted.mkQuestionsData "Acme Corp" 62
                 (Some ["Q1"; "Q2"; "Q3"; "Q4"; "Q5"]) "abc123" in
  let s := Hosted.mkState Hosted.TabQuestions
             (Hosted.mkQuestionsForm (Some "acme.csv") "Acme Corp" "sk-test")
             (Hosted.mkSwotForm None None "" "") false false
             (Some shown) None None in
  let r : Reply (Hosted.Response Hosted.QuestionsData) := Err "Failed to fetch" in
  Hosted.questions_panel s = Some shown /\
  Hosted.questions_panel
    (Hosted.replay (trace (Hosted.generateQuestions s r)) s) = None.
Proof.
  intros shown s r.
  split; [reflexivity |].
  apply (proj1 (submission_clears_own_result s) r).
  reflexivity.
Defined.

(** * Further properties of the handlers *)

(** ** The traces of the remaining handlers of the desktop application *)

Section MoreLocalTraces.
Import Local.

Lemma generateQuestions_trace (s : State) (r : Reply (list string)) :
  trace (generateQuestions s r) =
  if truthy (csvPath s) && truthy (businessName s)
  then
    questions_prefix s ++
    match r with
    | Ok qs =>
        [Resolved "generate_followup_questions";
         SetProgress 90; SetLoadingMessage "Processing results..."; Sleep 300;
         ConsoleLog [VStr "Generated questions:"; VList qs];
         SetQuestions qs;
         SetProgress 100; SetLoadingMessage "Complete!"] ++
        (if Nat.eqb (List.length qs) 0
         then [Alert "No questions were generated. Please check if the business name exists in the CSV file."]
         else [])
    | Err e =>
        [Rejected "generate_followup_questions" e;
         ConsoleError [VStr "Error generating questions:"; VStr e];
         Alert ("Error generating questions: " ++ e)]
    end ++ cleanup
  else [Alert "Please select a CSV file and enter a business name"].
Proof.
  destruct (truthy (csvPath s)) eqn:Hc; simpl.
  - destruct (truthy (businessName s)) eqn:Hn; simpl.
    + apply truthy_true in Hc, Hn. destruct r as [qs | e].
      * rewrite generateQuestions_resolved by assumption.
        destruct qs; reflexivity.
      * now rewrite generateQuestions_rejected by assumption.
    + apply truthy_false in Hn. now rewrite generateQuestions_guard by auto.
  - apply truthy_false in Hc. now rewrite generateQuestions_guard by auto.
Qed.

Lemma generateSwot_trace (s : State) (r : Reply string) :
  trace (generateSwot s r) =
  if truthy (swotCsvPath s) && truthy (pdfPath s) && truthy (swotBusinessName s)
  then
    swot_prefix s ++
    match r with
    | Ok analysis =>
        [Resolved "generate_swot_analysis";
         SetProgress 95; SetLoadingMessage "Finalizing analysis..."; Sleep 300;
         SetSwotAnalysis analysis;
         SetProgress 100; SetLoadingMessage "Complete!"]
    | Err e =>
        [Rejected "generate_swot_analysis" e;
         Alert ("Error generating SWOT analysis: " ++ e)]
    end ++ cleanup
  else [Alert "Please select CSV file, PDF file, and enter a business name"].
Proof.
  destruct (truthy (swotCsvPath s)) eqn:Hc; simpl.
  - destruct (truthy (pdfPath s)) eqn:Hp; simpl.
    + destruct (truthy (swotBusinessName s)) eqn:Hn; simpl.
      * apply truthy_true in Hc, Hp, Hn. destruct r as [a | e].
        -- now rewrite generateSwot_resolved by assumption.
        -- now rewrite generateSwot_rejected by assumption.
      * apply truthy_false in Hn. now rewrite generateSwot_guard by auto.
    + apply truthy_false in Hp. now rewrite generateSwot_guard by auto.
  - apply truthy_false in Hc. now rewrite generateSwot_guard by auto.
Qed.

Lemma selectCsvFile_trace (setter : string -> Event) (r : Reply (option string)) :
  selectCsvFile setter r =
  (Normal tt,
   OpenDialog "csv" ::
   match r with
   | Ok (Some path) =>
       if truthy path
       then [setter path; ConsoleLog [VStr "Selected file:"; VStr path]]
       else []
   | Ok None => []
   | Err e =>
       [ConsoleError [VStr "Error selecting file:"; VStr e];
        Alert ("Error selecting file: " ++ e)]
   end).
Proof. destruct r as [[[| c p] |] | e]; reflexivity. Qed.

Lemma selectPdfFile_trace (r : Reply (option string)) :
  selectPdfFile r =
  (Normal tt,
   OpenDialog "pdf" ::
   match r with
   | Ok (Some path) =>
       if truthy path
       then [SetPdfPath path; ConsoleLog [VStr "Selected PDF:"; VStr path]]
       else []
   | Ok None => []
   | Err e =>
       [ConsoleError [VStr "Error selecting PDF:"; VStr e];
        Alert ("Error selecting file: " ++ e)]
   end).
Proof. destruct r as [[[| c p] |] | e]; reflexivity. Qed.

Lemma saveQuestionsToPdf_trace (s : State) (dest : Reply (option string))
    (r : Reply unit) :
  saveQuestionsToPdf s dest r =
  (Normal tt,
   match questions s with
   | [] => [Alert "No questions to save"]
   | _ :: _ =>
       SaveDialog (businessName s ++ "_questions.pdf") ::
       match dest with
       | Ok (Some path) =>
           if truthy path
           then
             Invoke "save_questions_to_pdf"
               [("questions", VList (questions s));
                ("businessName", VStr (businessName s));
                ("outputPath", VStr path)] ::
             match r with
             | Ok _ =>
                 [Resolved "save_questions_to_pdf";
                  Alert "Questions saved successfully!"]
             | Err e =>
                 [Rejected "save_questions_to_pdf" e;
                  Alert ("Error saving questions: " ++ e)]
             end
           else []
       | Ok None => []
       | Err e => [Alert ("Error saving questions: " ++ e)]
       end
   end).
Proof.
  unfold saveQuestionsToPdf.
  destruct (questions s); [reflexivity |].
  destruct dest as [[[| c p] |] | e]; try reflexivity.
  destruct r as [[] | e]; reflexivity.
Qed.

Lemma saveSwotToPdf_trace (s : State) (dest : Reply (option string))
    (r : Reply unit) :
  saveSwotToPdf s dest r =
  (Normal tt,
   if truthy (swotAnalysis s)
   then
     SaveDialog (swotBusinessName s ++ "_swot.pdf") ::
     match dest with
     | Ok (Some path) =>
         if truthy path
         then
           Invoke "save_swot_to_pdf"
             [("swotText", VStr (swotAnalysis s));
              ("businessName", VStr (swotBusinessName s));
              ("outputPath", VStr path)] ::
           match r with
           | Ok _ =>
               [Resolved "save_swot_to_pdf";
                Alert "SWOT analysis saved successfully!"]
           | Err e =>
               [Rejected "save_swot_to_pdf" e;
                Alert ("Error saving SWOT analysis: " ++ e)]
           end
         else []
     | Ok None => []
     | Err e => [Alert ("Error saving SWOT analysis: " ++ e)]
     end
   else [Alert "No SWOT analysis to save"]).
Proof.
  unfold saveSwotToPdf.
  destruct (truthy (swotAnalysis s)); [| reflexivity].
  destruct dest as [[[| c p] |] | e]; try reflexivity.
  destruct r as [[] | e]; reflexivity.
Qed.

End MoreLocalTraces.

(** ** The desktop application, handler by handler *)

(** X1: the readiness check never throws.  It issues one call; the flag
    ends up set exactly when the call resolved, the status line shows what
    the backend answered or the error it raised, and no other cell changes. *)
Theorem check_reports_the_reply (s : Local.State) (r : Reply string) :
  let m := Local.checkOllamaStatus r in
  let final := Local.replay (trace m) s in
  completion m = Normal tt /\
  List.length (filter Local.is_invoke (trace m)) = 1%nat /\
  (Local.isOllamaReady final = true <-> exists status, r = Ok status) /\
  Local.ollamaStatus final =
    match r with
    | Ok status => status
    | Err e => e
    end /\
  final =
    Local.mkState (Local.ollamaStatus final) (Local.isOllamaReady final)
      (Local.loading s) (Local.loadingMessage s) (Local.progress s)
      (Local.activeTab s) (Local.csvPath s) (Local.businessName s)
      (Local.questions s) (Local.swotCsvPath s) (Local.pdfPath s)
      (Local.swotBusinessName s) (Local.swotAnalysis s).
Proof.
  destruct r as [status | e]; destruct s; simpl; repeat split;
    try discriminate; eauto.
  intros [status H]. discriminate H.
Qed.

(** X2: a file chooser of the desktop application never throws.  A chosen
    path is stored in the one cell of the chooser and in no other; a
    cancelled chooser, or an empty path, changes nothing and shows nothing; an
    error of the dialog changes nothing and is shown in an alert. *)
Theorem chooser_sets_one_path (s : Local.State) (r : Reply (option string)) :
  let csv := Local.selectCsvFile Local.SetCsvPath r in
  let swot := Local.selectCsvFile Local.SetSwotCsvPath r in
  let pdf := Local.selectPdfFile r in
  (completion csv = Normal tt /\ completion swot = Normal tt /\
   completion pdf = Normal tt) /\
  (forall path, r = Ok (Some path) -> path <> "" ->
   Local.replay (trace csv) s = Local.apply_event (Local.SetCsvPath path) s /\
   Local.replay (trace swot) s = Local.apply_event (Local.SetSwotCsvPath path) s /\
   Local.replay (trace pdf) s = Local.apply_event (Local.SetPdfPath path) s /\
   existsb Local.is_alert (trace csv ++ trace swot ++ trace pdf) = false) /\
  (r = Ok None \/ r = Ok (Some "") ->
   trace csv = [Local.OpenDialog "csv"] /\
   trace swot = [Local.OpenDialog "csv"] /\
   trace pdf = [Local.OpenDialog "pdf"]) /\
  (forall e, r = Err e ->
   Local.replay (trace csv) s = s /\ Local.replay (trace swot) s = s /\
   Local.replay (trace pdf) s = s /\
   In (Local.Alert ("Error selecting file: " ++ e)) (trace csv) /\
   In (Local.Alert ("Error selecting file: " ++ e)) (trace swot) /\
   In (Local.Alert ("Error selecting file: " ++ e)) (trace pdf)).
Proof.
  intros csv swot pdf; subst csv swot pdf.
  rewrite !selectCsvFile_trace, selectPdfFile_trace. unfold trace, completion.
  cbn [fst snd].
  split; [repeat split |].
  split; [| split].
  - intros path -> Hp. apply truthy_true in Hp. rewrite Hp.
    destruct s; repeat split.
  - intros [-> | ->]; repeat split.
  - intros e ->. destruct s; simpl; repeat split; tauto.
Qed.

(** A CSV chosen for the SWOT form. *)
Lemma chooser_sets_one_path_witness :
  Local.swotCsvPath
    (Local.replay
       (trace (Local.selectCsvFile Local.SetSwotCsvPath (Ok (Some "acme.csv"))))
       Local.initial_state) = "acme.csv" /\
  Local.csvPath
    (Local.replay
       (trace (Local.selectCsvFile Local.SetSwotCsvPath (Ok (Some "acme.csv"))))
       Local.initial_state) = "".
Proof.
  destruct (chooser_sets_one_path Local.initial_state (Ok (Some "acme.csv")))
    as (_ & H & _).
  destruct (H "acme.csv" eq_refl) as (_ & -> & _); [discriminate |].
  split; reflexivity.
Defined.

Lemma generateQuestions_final (s : Local.State) (r : Reply (list string)) :
  Local.csvPath s <> "" -> Local.businessName s <> "" ->
  Local.replay (trace (Local.generateQuestions s r)) s =
  Local.mkState (Local.ollamaStatus s) (Local.isOllamaReady s) false "" 0
    (Local.activeTab s) (Local.csvPath s) (Local.businessName s)
    match r with
    | Ok qs => qs
    | Err _ => Local.questions s
    end
    (Local.swotCsvPath s) (Local.pdfPath s) (Local.swotBusinessName s)
    (Local.swotAnalysis s).
Proof.
  intros Hc Hn. rewrite generateQuestions_trace.
  apply truthy_true in Hc, Hn. rewrite Hc, Hn.
  unfold Local.questions_prefix, Local.cleanup.
  destruct r as [[| q qs] | e]; destruct s; reflexivity.
Qed.

(** X3: the state a generation job leaves.  Whatever the backend answers,
    an accepted submission ends with the overlay hidden and reset, and with
    readiness, tab and every form field as before; its own result is replaced
    when the call resolves and kept when it fails, so the questions or the
    analysis of an earlier job stay on the page after a failure; the result
    of the other workflow is never touched. *)
Theorem generation_leaves_forms_and_old_results (s : Local.State) :
  (Local.csvPath s <> "" -> Local.businessName s <> "" ->
   forall r : Reply (list string),
   Local.replay (trace (Local.generateQuestions s r)) s =
   Local.mkState (Local.ollamaStatus s) (Local.isOllamaReady s) false "" 0
     (Local.activeTab s) (Local.csvPath s) (Local.businessName s)
     match r with
     | Ok qs => qs
     | Err _ => Local.questions s
     end
     (Local.swotCsvPath s) (Local.pdfPath s) (Local.swotBusinessName s)
     (Local.swotAnalysis s)) /\
  (Local.swotCsvPath s <> "" -> Local.pdfPath s <> "" ->
   Local.swotBusinessName s <> "" ->
   forall r : Reply string,
   Local.replay (trace (Local.generateSwot s r)) s =
   Local.mkState (Local.ollamaStatus s) (Local.isOllamaReady s) false "" 0
     (Local.activeTab s) (Local.csvPath s) (Local.businessName s)
     (Local.questions s)
     (Local.swotCsvPath s) (Local.pdfPath s) (Local.swotBusinessName s)
     match r with
     | Ok analysis => analysis
     | Err _ => Local.swotAnalysis s
     end).
Proof.
  split.
  - intros Hc Hn r. now apply generateQuestions_final.
  - intros Hc Hp Hn r. rewrite generateSwot_trace.
    apply truthy_true in Hc, Hp, Hn. rewrite Hc, Hp, Hn.
    unfold Local.swot_prefix, Local.cleanup.
    destruct r as [a | e]; destruct s; reflexivity.
Qed.

(** Questions of an earlier job survive a failed one. *)
Lemma generation_leaves_forms_and_old_results_witness :
  let s := Local.mkState "Ollama is running" true false "" 0 Local.TabQuestions
             "acme.csv" "Acme Corp" ["Q1"; "Q2"] "" "" "" "" in
  Local.questions
    (Local.replay (trace (Local.generateQuestions s (Err "timeout"))) s) =
  ["Q1"; "Q2"].
Proof.
  intro s.
  assert (Local.csvPath s <> "") as Hc by discriminate.
  assert (Local.businessName s <> "") as Hn by discriminate.
  rewrite (proj1 (generation_leaves_forms_and_old_results s) Hc Hn (Err "timeout")).
  reflexivity.
Defined.

(** X4: a submission of the desktop application issues exactly one
    transport call when its guard passes and none otherwise, whatever the
    backend answers; the call is the generation command of the workflow and
    carries the paths and the name of the form at the time of the click. *)
Theorem one_call_per_submission (s : Local.State) :
  (forall r : Reply (list string),
   let t := trace (Local.generateQuestions s r) in
   List.length (filter Local.is_invoke t) =
     (if Js.truthy (Local.csvPath s) && Js.truthy (Local.businessName s)
      then 1%nat else 0%nat) /\
   (forall cmd args, In (Local.Invoke cmd args) t ->
    cmd = "generate_followup_questions" /\
    args = [("csv_path", Local.VStr (Local.csvPath s));
            ("business_name", Local.VStr (Local.businessName s))])) /\
  (forall r : Reply string,
   let t := trace (Local.generateSwot s r) in
   List.length (filter Local.is_invoke t) =
     (if Js.truthy (Local.swotCsvPath s) && Js.truthy (Local.pdfPath s)
         && Js.truthy (Local.swotBusinessName s)
      then 1%nat else 0%nat) /\
   (forall cmd args, In (Local.Invoke cmd args) t ->
    cmd = "generate_swot_analysis" /\
    args = [("csv_path", Local.VStr (Local.swotCsvPath s));
            ("pdf_path", Local.VStr (Local.pdfPath s));
            ("business_name", Local.VStr (Local.swotBusinessName s))])).
Proof.
  split; intros r t; subst t.
  - rewrite generateQuestions_trace.
    destruct (truthy (Local.csvPath s) && truthy (Local.businessName s)).
    + unfold Local.questions_prefix, Local.cleanup.
      destruct r as [[| q qs] | e]; (split; [reflexivity |]);
        intros cmd args H; simpl in H;
        decompose [or] H; try discriminate; try contradiction;
        match goal with E : Local.Invoke _ _ = Local.Invoke _ _ |- _ =>
          injection E as <- <- end; split; reflexivity.
    + split; [reflexivity |].
      intros cmd args [H | []]. discriminate H.
  - rewrite generateSwot_trace.
    destruct (truthy (Local.swotCsvPath s) && truthy (Local.pdfPath s)
              && truthy (Local.swotBusinessName s)).
    + unfold Local.swot_prefix, Local.cleanup.
      destruct r as [a | e]; (split; [reflexivity |]);
        intros cmd args H; simpl in H;
        decompose [or] H; try discriminate; try contradiction;
        match goal with E : Local.Invoke _ _ = Local.Invoke _ _ |- _ =>
          injection E as <- <- end; split; reflexivity.
    + split; [reflexivity |].
      intros cmd args [H | []]. discriminate H.
Qed.

(** X5: the SWOT handler emits six labels: reading the files 0 to 15,
    processing the CSV 15 to 30, extracting the PDF 30 to 50, analyzing 50 to
    70, generating 70 to 95 and finalizing 95 to 100, then 100 with
    Complete!; and 100 or Complete! is emitted only in a trace where the
    transport call has resolved, after that resolution. *)
Theorem swot_phase_sequence (s : Local.State) (r : Reply string) :
  Local.swotCsvPath s <> "" -> Local.pdfPath s <> "" ->
  Local.swotBusinessName s <> "" ->
  let t := trace (Local.generateSwot s r) in
  (forall analysis, r = Ok analysis ->
   Local.phases (Local.emissions (Local.job t)) =
     [("Reading files...", 0, 15); ("Processing CSV data...", 15, 30);
      ("Extracting PDF content...", 30, 50);
      ("Analyzing company data...", 50, 70);
      ("Generating SWOT analysis with AI...", 70, 95);
      ("Finalizing analysis...", 95, 100)]%Z /\
   last (Local.emissions (Local.job t)) (0%Z, "") = (100%Z, "Complete!")) /\
  (In (Local.SetProgress 100) t \/ In (Local.SetLoadingMessage "Complete!") t ->
   exists analysis pre post,
     r = Ok analysis /\
     t = pre ++ Local.Resolved "generate_swot_analysis" :: post /\
     ~ In (Local.SetProgress 100) pre /\
     ~ In (Local.SetLoadingMessage "Complete!") pre).
Proof.
  intros Hc Hp Hn t; subst t. split.
  - intros analysis ->.
    rewrite generateSwot_resolved by assumption. local_events.
    split; reflexivity.
  - destruct r as [analysis | e].
    + intros _. exists analysis, (Local.swot_prefix s).
      rewrite generateSwot_resolved by assumption.
      eexists. split; [reflexivity |]. split; [reflexivity |].
      unfold Local.swot_prefix. simpl.
      split; intro H; decompose [or] H; discriminate || contradiction.
    + rewrite generateSwot_rejected by assumption.
      unfold Local.swot_prefix, Local.cleanup. simpl.
      intro H; decompose [or] H; discriminate || contradiction.
Qed.

(** A SWOT job on a filled form. *)
Lemma swot_phase_sequence_witness :
  let s := Local.form_of
             (Spec.SwotRequest "acme.csv" "answers.pdf" "Acme Corp" "sk-test") in
  last (Local.emissions (Local.job (trace (Local.generateSwot s (Ok "S")))))
    (0%Z, "") = (100%Z, "Complete!").
Proof.
  intro s.
  assert (Local.swotCsvPath s <> "") as Hc by discriminate.
  assert (Local.pdfPath s <> "") as Hp by discriminate.
  assert (Local.swotBusinessName s <> "") as Hn by discriminate.
  destruct (swot_phase_sequence s (Ok "S") Hc Hp Hn) as [H _].
  exact (proj2 (H "S" eq_refl)).
Defined.

(** X6: saving never throws and changes no state cell.  The backend is
    called only when there is something to save and the dialog returned a
    non-empty destination, with the stored result, the business name of the
    form and that destination; the success alert is shown only when that call
    resolved; without a result all the handler does is its alert. *)
Theorem saving_needs_a_result_and_a_destination
    (s : Local.State) (dest : Reply (option string)) (r : Reply unit) :
  let q := Local.saveQuestionsToPdf s dest r in
  let w := Local.saveSwotToPdf s dest r in
  (completion q = Normal tt /\ completion w = Normal tt) /\
  (Local.replay (trace q) s = s /\ Local.replay (trace w) s = s) /\
  (forall cmd args, In (Local.Invoke cmd args) (trace q) ->
   Local.questions s <> [] /\
   exists path, path <> "" /\ dest = Ok (Some path) /\
     cmd = "save_questions_to_pdf" /\
     args = [("questions", Local.VList (Local.questions s));
             ("businessName", Local.VStr (Local.businessName s));
             ("outputPath", Local.VStr path)]) /\
  (forall cmd args, In (Local.Invoke cmd args) (trace w) ->
   Local.swotAnalysis s <> "" /\
   exists path, path <> "" /\ dest = Ok (Some path) /\
     cmd = "save_swot_to_pdf" /\
     args = [("swotText", Local.VStr (Local.swotAnalysis s));
             ("businessName", Local.VStr (Local.swotBusinessName s));
             ("outputPath", Local.VStr path)]) /\
  (In (Local.Alert "Questions saved successfully!") (trace q) ->
   r = Ok tt /\ In (Local.Resolved "save_questions_to_pdf") (trace q)) /\
  (In (Local.Alert "SWOT analysis saved successfully!") (trace w) ->
   r = Ok tt /\ In (Local.Resolved "save_swot_to_pdf") (trace w)) /\
  (Local.questions s = [] -> trace q = [Local.Alert "No questions to save"]) /\
  (Local.swotAnalysis s = "" -> trace w = [Local.Alert "No SWOT analysis to save"]).
Proof.
  intros q w; subst q w.
  rewrite saveQuestionsToPdf_trace, saveSwotToPdf_trace.
  unfold trace, completion. cbn [fst snd].
  split; [split; reflexivity |].
  split.
  { split.
    - destruct (Local.questions s); [now destruct s |].
      destruct dest as [[[| c p] |] | e]; try (now destruct s).
      destruct r as [[] | e]; now destruct s.
    - destruct (truthy (Local.swotAnalysis s)); [| now destruct s].
      destruct dest as [[[| c p] |] | e]; try (now destruct s).
      destruct r as [[] | e]; now destruct s. }
  split.
  { intros cmd args H.
    destruct (Local.questions s) as [| q0 qs] eqn:Eq.
    { destruct H as [H | []]. discriminate H. }
    split; [discriminate |].
    destruct dest as [[[| c p] |] | e]; simpl in H;
      try (decompose [or] H; discriminate || contradiction).
    exists (String c p). split; [discriminate |]. split; [reflexivity |].
    destruct r as [[] | e]; simpl in H;
      decompose [or] H; try discriminate; try contradiction;
      match goal with E : Local.Invoke _ _ = Local.Invoke _ _ |- _ =>
        injection E as <- <- end; split; reflexivity. }
  split.
  { intros cmd args H.
    destruct (Local.swotAnalysis s) as [| c0 a] eqn:Ea; simpl in H.
    { destruct H as [H | []]. discriminate H. }
    split; [discriminate |].
    destruct dest as [[[| c p] |] | e]; simpl in H;
      try (decompose [or] H; discriminate || contradiction).
    exists (String c p). split; [discriminate |]. split; [reflexivity |].
    destruct r as [[] | e]; simpl in H;
      decompose [or] H; try discriminate; try contradiction;
      match goal with E : Local.Invoke _ _ = Local.Invoke _ _ |- _ =>
        injection E as <- <- end; split; reflexivity. }
  split.
  { intro H. destruct (Local.questions s); simpl in H.
    { destruct H as [H | []]. discriminate H. }
    destruct dest as [[[| c p] |] | e]; simpl in H;
      try (decompose [or] H; discriminate || contradiction).
    destruct r as [[] | e]; simpl in H.
    - split; [reflexivity |]. simpl. tauto.
    - decompose [or] H; discriminate || contradiction. }
  split.
  { intro H. destruct (truthy (Local.swotAnalysis s)); simpl in H.
    2:{ destruct H as [H | []]. discriminate H. }
    destruct dest as [[[| c p] |] | e]; simpl in H;
      try (decompose [or] H; discriminate || contradiction).
    destruct r as [[] | e]; simpl in H.
    - split; [reflexivity |]. simpl. tauto.
    - decompose [or] H; discriminate || contradiction. }
  split.
  - intros ->. reflexivity.
  - intros ->. reflexivity.
Qed.

(** A cancelled save dialog: nothing is sent. *)
Lemma saving_needs_a_result_and_a_destination_witness :
  let s := Local.mkState "Ollama is running" true false "" 0 Local.TabQuestions
             "acme.csv" "Acme Corp" ["Q1"] "" "" "" "" in
  Local.replay (trace (Local.saveQuestionsToPdf s (Ok None) (Ok tt))) s = s /\
  trace (Local.saveSwotToPdf s (Ok None) (Ok tt)) =
  [Local.Alert "No SWOT analysis to save"].
Proof.
  intro s.
  destruct (saving_needs_a_result_and_a_destination s (Ok None) (Ok tt))
    as (_ & [H _] & _ & _ & _ & _ & _ & Hw).
  split; [exact H | exact (Hw eq_refl)].
Defined.

(** X7: the stored questions are not tied to the name they were made for.
    After a job for one business name has stored its questions, and the name
    field has been edited, saving sends those questions under the edited
    name, which is also the name of the proposed file. *)
Theorem saved_name_is_the_current_field
    (s : Local.State) (qs : list string) (edited path : string) :
  Local.csvPath s <> "" -> Local.businessName s <> "" ->
  qs <> [] -> path <> "" ->
  let generated := Local.replay (trace (Local.generateQuestions s (Ok qs))) s in
  let renamed := Local.apply_event (Local.SetBusinessName edited) generated in
  trace (Local.saveQuestionsToPdf renamed (Ok (Some path)) (Ok tt)) =
  [Local.SaveDialog (edited ++ "_questions.pdf");
   Local.Invoke "save_questions_to_pdf"
     [("questions", Local.VList qs);
      ("businessName", Local.VStr edited);
      ("outputPath", Local.VStr path)];
   Local.Resolved "save_questions_to_pdf";
   Local.Alert "Questions saved successfully!"].
Proof.
  intros Hc Hn Hq Hp generated renamed; subst renamed generated.
  rewrite saveQuestionsToPdf_trace.
  rewrite (generateQuestions_final s (Ok qs) Hc Hn).
  unfold trace. cbn.
  destruct qs as [| q0 qs]; [now elim Hq |].
  apply truthy_true in Hp. rewrite Hp. reflexivity.
Qed.

(** Questions made for Acme Corp, saved after the field was retyped. *)
Lemma saved_name_is_the_current_field_witness :
  let s := Local.form_of (Spec.QuestionsRequest "acme.csv" "Acme Corp" "sk-test") in
  let generated :=
    Local.replay (trace (Local.generateQuestions s (Ok ["Q1"; "Q2"]))) s in
  In (Local.Invoke "save_questions_to_pdf"
        [("questions", Local.VList ["Q1"; "Q2"]);
         ("businessName", Local.VStr "Globex");
         ("outputPath", Local.VStr "/tmp/out.pdf")])
     (trace (Local.saveQuestionsToPdf
               (Local.apply_event (Local.SetBusinessName "Globex") generated)
               (Ok (Some "/tmp/out.pdf")) (Ok tt))).
Proof.
  intros s generated. unfold generated.
  rewrite (saved_name_is_the_current_field s ["Q1"; "Q2"] "Globex" "/tmp/out.pdf");
    try discriminate.
  right; left; reflexivity.
Defined.

(** ** The desktop application over a lifetime *)

(** Rewrites the handler of an action into its events. *)
Ltac local_handlers :=
  cbn [Local.handler];
  rewrite ?checkOllamaStatus_trace, ?generateQuestions_trace,
    ?generateSwot_trace, ?selectCsvFile_trace, ?selectPdfFile_trace,
    ?saveQuestionsToPdf_trace, ?saveSwotToPdf_trace;
  unfold trace, Local.questions_prefix, Local.swot_prefix, Local.cleanup;
  cbn [snd].

(** Splits on whatever the events of the goal still depend on. *)
Ltac break_goal :=
  repeat match goal with
         | |- context [match ?x with _ => _ end] => destruct x
         end.

Lemma run_app (s : Local.State) (a : Local.Action) (rest : list Local.Action) :
  Local.run s (a :: rest) =
  (fst (Local.run (fst (Local.step s a)) rest),
   snd (Local.step s a) ++ snd (Local.run (fst (Local.step s a)) rest)).
Proof.
  simpl. destruct (Local.step s a) as [s1 t1]. cbn [fst snd].
  now destruct (Local.run s1 rest).
Qed.




Lemma step_shows_no_guard_alert (s : Local.State) (a : Local.Action) :
  existsb Local.is_guard_alert (snd (Local.step s a)) = false.
Proof.
  unfold Local.step.
  destruct (Local.available s a) eqn:Hav; cbn [fst snd]; [| reflexivity].
  destruct a; local_handlers.
  - destruct r; reflexivity.
  - reflexivity.
  - destruct r as [[[| c p] |] | e]; reflexivity.
  - reflexivity.
  - destruct s as [st rdy ld msg pr tab csv name qs scsv pdf sname swot].
    destruct rdy, tab, ld, csv, name; try discriminate Hav.
    destruct r as [[| q l] | e]; reflexivity.
  - destruct s as [st rdy ld msg pr tab csv name qs scsv pdf sname swot].
    destruct rdy, tab, qs; try discriminate Hav.
    destruct dest as [[[| c p] |] | e]; try reflexivity.
    destruct r as [[] | e]; reflexivity.
  - destruct r as [[[| c p] |] | e]; reflexivity.
  - destruct r as [[[| c p] |] | e]; reflexivity.
  - reflexivity.
  - destruct s as [st rdy ld msg pr tab csv name qs scsv pdf sname swot].
    destruct rdy, tab, ld, scsv, pdf, sname; try discriminate Hav.
    destruct r as [an | e]; reflexivity.
  - destruct s as [st rdy ld msg pr tab csv name qs scsv pdf sname swot].
    destruct rdy, tab, swot; try discriminate Hav.
    destruct dest as [[[| c p] |] | e]; try reflexivity.
    destruct r as [[] | e]; reflexivity.
Qed.

(** X9: through the page, the alerts of the four guards are never shown:
    a generation button is disabled while a field of its form is empty and a
    save button is rendered only under a result, so whenever a handler runs
    its guard passes. *)
Theorem guard_alerts_are_never_shown
    (actions : list Local.Action) (s : Local.State) :
  existsb Local.is_guard_alert (snd (Local.run s actions)) = false /\
  forall mount,
  existsb Local.is_guard_alert (snd (Local.session mount actions)) = false.
Proof.
  assert (forall l s0,
            existsb Local.is_guard_alert (snd (Local.run s0 l)) = false) as H.
  { induction l as [| a rest IH]; intro s0; [reflexivity |].
    rewrite run_app. cbn [snd].
    now rewrite existsb_app, step_shows_no_guard_alert, IH. }
  split; [apply H |].
  intro mount. unfold Local.session.
  specialize (H actions
                (Local.replay (trace (Local.checkOllamaStatus mount))
                   Local.initial_state)).
  destruct (Local.run _ actions) as [s1 t1]. cbn [snd] in *.
  rewrite existsb_app, H, checkOllamaStatus_trace.
  destruct mount; reflexivity.
Qed.

Lemma step_comes_to_rest (s : Local.State) (a : Local.Action) :
  Local.at_rest s = true -> Local.at_rest (fst (Local.step s a)) = true.
Proof.
  intro Hr. unfold Local.step.
  destruct (Local.available s a); cbn [fst snd]; [| exact Hr].
  destruct a; local_handlers;
    destruct s; unfold Local.at_rest in *; simpl in *;
    break_goal; simpl; trivial.
Qed.

(** X10: every action comes to rest.  From a state where the overlay is
    hidden with its percentage at 0 and its label empty, any sequence of
    actions, each run to its end, leaves the overlay hidden, at 0 and
    without label: no job, failed or not, leaves the page blocked. *)
Theorem overlay_is_hidden_between_actions
    (actions : list Local.Action) (s : Local.State) :
  Local.at_rest s = true ->
  Local.at_rest (fst (Local.run s actions)) = true /\
  Local.overlay (fst (Local.run s actions)) = None.
Proof.
  intro Hr.
  assert (Local.at_rest (fst (Local.run s actions)) = true) as H.
  { revert s Hr. induction actions as [| a rest IH]; intros s Hr; trivial.
    rewrite run_app. cbn [fst].
    apply IH. now apply step_comes_to_rest. }
  split; [exact H |].
  unfold Local.at_rest in H. unfold Local.overlay.
  destruct (Local.loading _); [discriminate H | reflexivity].
Qed.

(** Scenario D followed by a failing job. *)
Lemma overlay_is_hidden_between_actions_witness :
  Local.overlay
    (fst (Local.run
            (Local.replay (trace (Local.checkOllamaStatus (Ok "Ollama is running")))
               Local.initial_state)
            [Local.BrowseCsv (Ok (Some "acme.csv"));
             Local.TypeBusinessName "Acme Corp";
             Local.ClickGenerateQuestions (Err "Business name not found")])) = None.
Proof.
  apply (overlay_is_hidden_between_actions
           [Local.BrowseCsv (Ok (Some "acme.csv"));
            Local.TypeBusinessName "Acme Corp";
            Local.ClickGenerateQuestions (Err "Business name not found")]).
  reflexivity.
Defined.

(** ** The web application, handler by handler *)

Section HostedHandlers.
Import Hosted.

(** X11: an edit of a form of the web application rewrites one field of
    that form and nothing else.  The file field takes the first chosen file;
    a cancelled chooser empties it, which disables the submit button again;
    edits of different fields give the same form in either order. *)
Theorem form_edits_rewrite_one_field
    (s : State) (files : list File) (v : string) :
  let chosen := replay (trace (handler s (ChooseQuestionsCsv files))) s in
  let typed := replay (trace (handler s (TypeQuestionsName v))) s in
  let pdf := replay (trace (handler s (ChooseSwotPdf files))) s in
  chosen =
    mkState (activeTab s)
      (mkQuestionsForm (hd_error files) (qf_businessName (questionsForm s))
         (qf_apiKey (questionsForm s)))
      (swotForm s) (questionsLoading s) (swotLoading s) (questionsResult s)
      (swotResult s) (error s) /\
  typed =
    mkState (activeTab s)
      (mkQuestionsForm (qf_csvFile (questionsForm s)) v
         (qf_apiKey (questionsForm s)))
      (swotForm s) (questionsLoading s) (swotLoading s) (questionsResult s)
      (swotResult s) (error s) /\
  pdf =
    mkState (activeTab s) (questionsForm s)
      (mkSwotForm (sf_csvFile (swotForm s)) (hd_error files)
         (sf_businessName (swotForm s)) (sf_apiKey (swotForm s)))
      (questionsLoading s) (swotLoading s) (questionsResult s)
      (swotResult s) (error s) /\
  (files = [] ->
   questions_button_disabled chosen = true /\ swot_button_disabled pdf = true) /\
  replay (trace (handler chosen (TypeQuestionsName v))) chosen =
  replay (trace (handler typed (ChooseQuestionsCsv files))) typed.
Proof.
  intros chosen typed pdf; subst chosen typed pdf.
  destruct s as [tab [qc qn qk] [sc sp sn sk] ql sl qr sr err].
  repeat split; subst files; simpl.
  - destruct ql; reflexivity.
  - destruct sl, sc; reflexivity.
Qed.

(** A chooser that is opened again and cancelled. *)
Lemma form_edits_rewrite_one_field_witness :
  let s := mkState TabQuestions (mkQuestionsForm (Some "acme.csv") "Acme Corp" "sk-test")
             (mkSwotForm None None "" "") false false None None None in
  questions_button_disabled s = false /\
  questions_button_disabled
    (replay (trace (handler s (ChooseQuestionsCsv []))) s) = true.
Proof.
  intro s. split; [reflexivity |].
  destruct (form_edits_rewrite_one_field s [] "") as (_ & _ & _ & H & _).
  exact (proj1 (H eq_refl)).
Defined.

(** X12: a download never throws and never touches a form, a flag or a
    result, so the same result can be downloaded again.  It issues one GET for
    the id; the file is handed to the browser, under the given name, only when
    the response is a success whose content could be read, and then the error
    banner is left as it was; every other reply sets the banner. *)
Theorem download_keeps_the_results
    (s : State) (pdfId filename : string) (r : Reply Download) :
  let m := downloadPdf pdfId filename r in
  let final := replay (trace m) s in
  completion m = Normal tt /\
  filter is_fetch (trace m) =
    [Fetch "GET" ("http://localhost:8000/api/download-pdf/" ++ pdfId) []] /\
  (questionsForm final = questionsForm s /\ swotForm final = swotForm s /\
   questionsLoading final = questionsLoading s /\
   swotLoading final = swotLoading s /\
   questionsResult final = questionsResult s /\
   swotResult final = swotResult s) /\
  (forall name blob, In (AnchorClick name blob) (trace m) ->
   name = filename /\ r = Ok (mkDownload true (Ok blob)) /\ final = s) /\
  (existsb is_click (trace m) = false ->
   error final = Some "Failed to download PDF").
Proof.
  intros m final; subst final m.
  split; [destruct r as [[[ | ] [blob | e]] | e]; reflexivity |].
  split; [destruct r as [[[ | ] [blob | e]] | e]; reflexivity |].
  split; [destruct r as [[[ | ] [blob | e]] | e]; destruct s; repeat split |].
  split.
  - intros name b H.
    destruct r as [[[ | ] [blob | e]] | e]; simpl in H;
      decompose [or] H; try discriminate; try contradiction.
    match goal with E : AnchorClick _ _ = AnchorClick _ _ |- _ =>
      injection E as <- <- end.
    destruct s; repeat split.
  - destruct r as [[[ | ] [blob | e]] | e]; destruct s; simpl;
      trivial; discriminate.
Qed.



(** X14: the body is read before the status is looked at.  A response
    whose body cannot be read is a failure with the error of the reading,
    under a success status as under a failure status, and no result is
    stored; a request that fails before any response reads no body. *)
Theorem unreadable_body_is_an_error (s : State) (e : string) :
  (forall status,
   let final :=
     replay (trace (generateQuestions s (Ok (mkResponse status (Err e))))) s in
   error final = Some e /\ questionsResult final = None /\
   questionsLoading final = false) /\
  (forall status,
   let final :=
     replay (trace (generateSwot s (Ok (mkResponse status (Err e))))) s in
   error final = Some e /\ swotResult final = None /\
   swotLoading final = false) /\
  ~ In ReadJson (trace (generateQuestions s (Err e))) /\
  ~ In ReadJson (trace (generateSwot s (Err e))) /\
  (forall response, In ReadJson (trace (generateQuestions s (Ok response)))) /\
  (forall response, In ReadJson (trace (generateSwot s (Ok response)))).
Proof.
  split; [| split; [| split; [| split]]].
  - intros status final; subst final. destruct status, s; repeat split.
  - intros status final; subst final. destruct status, s; repeat split.
  - simpl. intro H; decompose [or] H; discriminate || contradiction.
  - simpl. intro H; decompose [or] H; discriminate || contradiction.
  - split; intros [[ | ] [body | e']]; simpl; tauto.
Qed.


Lemma numbered_length (l : list string) :
  forall index, List.length (numbered index l) = List.length l.
Proof.
  induction l as [| q l IH]; intro index; simpl; [reflexivity |].
  now rewrite IH.
Qed.

Lemma numbered_nth (l : list string) :
  forall (index : Z) (k : nat), (k < List.length l)%nat ->
  nth k (numbered index l) [] =
  [Number (index + Z.of_nat k + 1); Text "."; Text (nth k l "")].
Proof.
  induction l as [| q l IH]; intros index k Hk; simpl in Hk; [lia |].
  destruct k as [| k].
  - simpl. now rewrite Z.add_0_r.
  - cbn [numbered nth]. rewrite IH by lia.
    do 3 f_equal. lia.
Qed.

(** X16: the preview lists every entry of questions_preview, in order,
    each after its position counted from 1; the paragraph under it announces
    the right number of further questions exactly when the preview has five
    entries. *)
Theorem preview_numbers_from_one (r : QuestionsData) (l : list string) :
  questions_preview r = Some l ->
  exists items footer,
    preview r = Some (items, footer) /\
    List.length items = List.length l /\
    (forall k, (k < List.length l)%nat ->
     nth k items [] = [Number (Z.of_nat k + 1); Text "."; Text (nth k l "")]) /\
    (additional_questions r + Z.of_nat (List.length l) = questions_count r <->
     List.length l = 5%nat)%Z.
Proof.
  intro Hp. unfold preview. rewrite Hp.
  eexists _, _. split; [reflexivity |].
  split; [apply numbered_length |].
  split.
  - intros k Hk. now rewrite numbered_nth.
  - unfold additional_questions. lia.
Qed.

(** A preview of three questions out of three. *)
Lemma preview_numbers_from_one_witness :
  exists items footer,
    preview (mkQuestionsData "Acme Corp" 3 (Some ["Q1"; "Q2"; "Q3"]) "abc123") =
    Some (items, footer) /\
    nth 2 items [] = [Number 3; Text "."; Text "Q3"].
Proof.
  destruct (preview_numbers_from_one
              (mkQuestionsData "Acme Corp" 3 (Some ["Q1"; "Q2"; "Q3"]) "abc123")
              ["Q1"; "Q2"; "Q3"] eq_refl)
    as (items & footer & Hp & _ & Hk & _).
  exists items, footer. split; [exact Hp |].
  apply (Hk 2%nat). simpl. lia.
Defined.

End HostedHandlers.

(** ** The web application over a session *)

Section HostedSession.
Import Hosted.

Lemma hosted_run_app (s : State) (a : Action) (rest : list Action) :
  run s (a :: rest) =
  (fst (run (fst (step s a)) rest),
   snd (step s a) ++ snd (run (fst (step s a)) rest)).
Proof.
  simpl. destruct (step s a) as [s1 t1]. cbn [fst snd].
  now destruct (run s1 rest).
Qed.

Lemma step_sends_complete_forms (s : State) (a : Action) :
  forallb complete (snd (step s a)) = true.
Proof.
  unfold step. destruct (available s a) eqn:Hav; cbn [fst snd]; [| reflexivity].
  destruct a; cbn [handler]; try reflexivity.
  - destruct s as [tab [qc qn qk] sf ql sl qr sr err].
    destruct tab, ql, qc, qn, qk; try discriminate Hav.
    hosted_reply r; reflexivity.
  - destruct (questionsResult s); [| reflexivity].
    destruct r as [[[ | ] [blob | e]] | e]; reflexivity.
  - destruct s as [tab qf [sc sp sn sk] ql sl qr sr err].
    destruct tab, sl, sc, sp, sn, sk; try discriminate Hav.
    hosted_reply r; reflexivity.
  - destruct (swotResult s); [| reflexivity].
    destruct r as [[[ | ] [blob | e]] | e]; reflexivity.
Qed.

(** X17: through the page of the web application, no generation request
    is sent with a missing part: a submit button is disabled while a file of
    its form is not chosen or its name or key is empty, and the handlers run
    only from the enabled button.  In any sequence of actions from any state,
    every part of every request sent carries a file or a non-empty text. *)
Theorem page_sends_complete_forms (actions : list Action) (s : State) :
  forall method url body key part,
  In (Fetch method url body) (snd (run s actions)) ->
  In (key, part) body ->
  filled part = true.
Proof.
  assert (forall l s0, forallb complete (snd (run s0 l)) = true) as H.
  { induction l as [| a rest IH]; intro s0; [reflexivity |].
    rewrite hosted_run_app. cbn [snd].
    now rewrite forallb_app, step_sends_complete_forms, IH. }
  intros method url body key part Hf Hp.
  specialize (H actions s).
  rewrite forallb_forall in H. specialize (H _ Hf).
  simpl in H. rewrite forallb_forall in H.
  exact (H _ Hp).
Qed.

(** A form filled step by step, a submit attempted early and one at the
    end. *)
Lemma page_sends_complete_forms_witness :
  let data := mkQuestionsData "Acme Corp" 62 (Some ["Q1"]) "abc123" in
  let reply := Ok (mkResponse true (Ok (mkBody NoDetail data))) in
  let actions :=
    [ChooseQuestionsCsv ["acme.csv"]; SubmitQuestions reply;
     TypeQuestionsName "Acme Corp"; TypeQuestionsKey "sk-test";
     SubmitQuestions reply] in
  List.length (filter is_fetch (snd (run initial_state actions))) = 1%nat /\
  filled (PText "Acme Corp") = true.
Proof.
  intros data reply actions.
  split; [reflexivity |].
  apply (page_sends_complete_forms actions initial_state
           "POST" "http://localhost:8000/api/generate-questions"
           [("csv_file", PFile (Some "acme.csv"));
            ("business_name", PText "Acme Corp");
            ("api_key", PText "sk-test")]
           "business_name" (PText "Acme Corp")).
  - simpl. tauto.
  - simpl. tauto.
Defined.

End HostedSession.

(** ** What can be saved *)

Section Saving.
Import Local.

Lemma step_saves_generated_questions (s : State) (a : Action) :
  (existsb (invokes "save_questions_to_pdf") (snd (step s a)) = true ->
   questions s <> []) /\
  (questions (fst (step s a)) <> [] ->
   questions s <> [] \/
   existsb (resolves "generate_followup_questions") (snd (step s a)) = true).
Proof.
  unfold step. destruct (available s a); cbn [fst snd];
    [| split; [discriminate | tauto]].
  destruct a; local_handlers;
    destruct s as [st rdy ld msg pr tab csv name qs scsv pdf sname swot];
    simpl; break_goal; simpl;
    (split; [try discriminate; try (intros _; discriminate) | tauto]).
Qed.

Lemma step_saves_generated_analysis (s : State) (a : Action) :
  (existsb (invokes "save_swot_to_pdf") (snd (step s a)) = true ->
   swotAnalysis s <> "") /\
  (swotAnalysis (fst (step s a)) <> "" ->
   swotAnalysis s <> "" \/
   existsb (resolves "generate_swot_analysis") (snd (step s a)) = true).
Proof.
  unfold step. destruct (available s a); cbn [fst snd];
    [| split; [discriminate | tauto]].
  destruct a; local_handlers;
    destruct s as [st rdy ld msg pr tab csv name qs scsv pdf sname swot];
    destruct swot as [| c0 swot];
    simpl; break_goal; simpl;
    (split; [try discriminate; try (intros _; discriminate) | tauto]).
Qed.

Lemma run_saves_generated_questions (actions : list Action) :
  forall s,
  (existsb (invokes "save_questions_to_pdf") (snd (run s actions)) = true ->
   questions s <> [] \/
   existsb (resolves "generate_followup_questions") (snd (run s actions)) = true) /\
  (questions (fst (run s actions)) <> [] ->
   questions s <> [] \/
   existsb (resolves "generate_followup_questions") (snd (run s actions)) = true).
Proof.
  induction actions as [| a rest IH]; intro s.
  - simpl. split; [discriminate | tauto].
  - rewrite run_app. cbn [fst snd].
    destruct (step_saves_generated_questions s a) as [A B].
    destruct (IH (fst (step s a))) as [C D].
    rewrite !existsb_app.
    assert (questions (fst (step s a)) <> [] ->
            questions s <> [] \/
            existsb (resolves "generate_followup_questions")
              (snd (step s a))
            || existsb (resolves "generate_followup_questions")
                 (snd (run (fst (step s a)) rest)) = true) as E.
    { intro H. destruct (B H) as [H1 | H1]; [now left |].
      right. now rewrite H1. }
    split.
    + intro H. apply orb_true_iff in H as [H | H]; [left; auto |].
      destruct (C H) as [H1 | H1]; [auto |].
      right. rewrite H1. apply orb_true_r.
    + intro H. destruct (D H) as [H1 | H1]; [auto |].
      right. rewrite H1. apply orb_true_r.
Qed.

Lemma run_saves_generated_analysis (actions : list Action) :
  forall s,
  (existsb (invokes "save_swot_to_pdf") (snd (run s actions)) = true ->
   swotAnalysis s <> "" \/
   existsb (resolves "generate_swot_analysis") (snd (run s actions)) = true) /\
  (swotAnalysis (fst (run s actions)) <> "" ->
   swotAnalysis s <> "" \/
   existsb (resolves "generate_swot_analysis") (snd (run s actions)) = true).
Proof.
  induction actions as [| a rest IH]; intro s.
  - simpl. split; [discriminate | tauto].
  - rewrite run_app. cbn [fst snd].
    destruct (step_saves_generated_analysis s a) as [A B].
    destruct (IH (fst (step s a))) as [C D].
    rewrite !existsb_app.
    assert (swotAnalysis (fst (step s a)) <> "" ->
            swotAnalysis s <> "" \/
            existsb (resolves "generate_swot_analysis") (snd (step s a))
            || existsb (resolves "generate_swot_analysis")
                 (snd (run (fst (step s a)) rest)) = true) as E.
    { intro H. destruct (B H) as [H1 | H1]; [now left |].
      right. now rewrite H1. }
    split.
    + intro H. apply orb_true_iff in H as [H | H]; [left; auto |].
      destruct (C H) as [H1 | H1]; [auto |].
      right. rewrite H1. apply orb_true_r.
    + intro H. destruct (D H) as [H1 | H1]; [auto |].
      right. rewrite H1. apply orb_true_r.
Qed.

(** X18: in a lifetime of the desktop application nothing is saved that
    was not generated in it: a call that saves questions occurs only in a
    lifetime where a generation of questions has resolved, and a call that
    saves an analysis only where a generation of an analysis has resolved. *)
Theorem only_generated_results_are_saved
    (mount : Reply string) (actions : list Action) :
  let t := snd (session mount actions) in
  (existsb (invokes "save_questions_to_pdf") t = true ->
   existsb (resolves "generate_followup_questions") t = true) /\
  (existsb (invokes "save_swot_to_pdf") t = true ->
   existsb (resolves "generate_swot_analysis") t = true).
Proof.
  unfold session.
  set (s0 := replay (trace (checkOllamaStatus mount)) initial_state).
  assert (questions s0 = [] /\ swotAnalysis s0 = "") as [Hq Ha].
  { unfold s0. rewrite checkOllamaStatus_trace. destruct mount; split; reflexivity. }
  destruct (run_saves_generated_questions actions s0) as [Q _].
  destruct (run_saves_generated_analysis actions s0) as [A _].
  destruct (run s0 actions) as [s1 t1]. cbn [snd] in *.
  rewrite checkOllamaStatus_trace.
  split; intro H; rewrite existsb_app in *;
    apply orb_true_iff in H as [H | H];
    try (destruct mount; discriminate H).
  - destruct (Q H) as [H1 | H1]; [now elim H1 |].
    rewrite H1. apply orb_true_r.
  - destruct (A H) as [H1 | H1]; [now elim H1 |].
    rewrite H1. apply orb_true_r.
Qed.

(** Questions generated, then saved. *)
Lemma only_generated_results_are_saved_witness :
  let actions :=
    [BrowseCsv (Ok (Some "acme.csv")); TypeBusinessName "Acme Corp";
     ClickSaveQuestions (Ok (Some "/tmp/out.pdf")) (Ok tt);
     ClickGenerateQuestions (Ok ["Q1"]);
     ClickSaveQuestions (Ok (Some "/tmp/out.pdf")) (Ok tt)] in
  let t := snd (session (Ok "Ollama is running") actions) in
  List.length (filter (invokes "save_questions_to_pdf") t) = 1%nat /\
  existsb (resolves "generate_followup_questions") t = true.
Proof.
  intros actions t. split; [reflexivity |].
  apply (proj1 (only_generated_results_are_saved (Ok "Ollama is running") actions)).
  reflexivity.
Defined.

End Saving.

(** A download that fails after one that worked. *)
Lemma download_keeps_the_results_witness :
  let shown := Hosted.mkQuestionsData "Acme Corp" 62 (Some ["Q1"]) "abc123" in
  let s := Hosted.mkState Hosted.TabQuestions
             (Hosted.mkQuestionsForm (Some "acme.csv") "Acme Corp" "sk-test")
             (Hosted.mkSwotForm None None "" "") false false
             (Some shown) None None in
  let m := Hosted.downloadPdf "abc123" "Acme Corp_questionnaire.pdf"
             (Ok (Hosted.mkDownload false (Ok ""))) in
  Hosted.questionsResult (Hosted.replay (trace m) s) = Some shown /\
  Hosted.error (Hosted.replay (trace m) s) = Some "Failed to download PDF".
Proof.
  intros shown s m.
  destruct (download_keeps_the_results s "abc123" "Acme Corp_questionnaire.pdf"
              (Ok (Hosted.mkDownload false (Ok ""))))
    as (_ & _ & (_ & _ & _ & _ & Hq & _) & _ & He).
  split; [exact Hq | apply He; reflexivity].
Defined.
